(** * DairyClime: heat-stress index (ITU) for dairy cows

    A shallow embedding of the computational core of [DairyClime.py]:
    the index formula, the four-band classifier and its colour lookup,
    the period diagnosis, the period-dependent aggregation of the daily
    series ([preparar_df_plot]), the bar colours of the chart and the
    guarded analysis flow.

    Python floats are IEEE binary64 numbers: they are modelled by Rocq's
    primitive [float], whose operations are the binary64 ones.  A date
    (a [datetime.date] or a midnight pandas [Timestamp]) is the number of
    days since 1970-01-01, an integer. *)

From Stdlib Require Import Floats ZArith List String Bool Lia.
From Stdlib Require Import DecimalString Sorted.
Import ListNotations.

Set Warnings "-inexact-float".

Local Open Scope string_scope.
Local Open Scope Z_scope.

(* ================================================================== *)
(** * Part I: the program                                              *)
(* ================================================================== *)

(** ** Index and classification *)

(** [calcular_itu]: ITU = 0,8×Ta + (UR×(Ta−14,3))/100 + 46,3. *)
Definition calcular_itu (ta_c ur_pct : float) : float :=
  (0.8 * ta_c + (ur_pct * (ta_c - 14.3)) / 100.0 + 46.3)%float.

Definition classificar_itu (itu : float) : string :=
  if (itu <=? 70)%float then "Normal"
  else if (itu <=? 78)%float then "Alerta"
  else if (itu <=? 82)%float then "Perigo"
  else "Emergência".

Definition recomendacao_por_classe (classe : string) : string :=
  if String.eqb classe "Normal" then
    "✅ Conforto: manter água limpa e sombra. Rotina normal."
  else if String.eqb classe "Alerta" then
    "🟡 Atenção: reforçar água e sombra. Evitar manejo no horário mais quente."
  else if String.eqb classe "Perigo" then
    "🟠 Risco alto: usar ventilação e/ou aspersão se disponível. Mudar manejo para manhã cedo/tarde."
  else
    "🔴 Emergência: ação imediata! Levar animais para sombra, muita água e resfriamento (ventilador/aspersor). Evitar qualquer manejo.".

Definition cor_por_itu (itu : float) : string :=
  if (itu <=? 70)%float then "#2E7D32"
  else if (itu <=? 78)%float then "#F9A825"
  else if (itu <=? 82)%float then "#EF6C00"
  else "#C62828".

(** ** Formatting with one decimal: the f-string conversion [:.1f]

    The conversion prints the exact binary value rounded to one decimal,
    ties to even; [nan] and the infinities print as words and the sign of
    a negative zero is kept. *)

Definition decimal_de_Z (n : Z) : string :=
  NilZero.string_of_uint (N.to_uint (Z.to_N n)).

(** The integer nearest to [num / den], ties to even ([0 < den]). *)
Definition arredonda_par (num den : Z) : Z :=
  let q := num / den in
  let r := num mod den in
  match 2 * r ?= den with
  | Lt => q
  | Gt => q + 1
  | Eq => if Z.even q then q else q + 1
  end.

Definition decimos (m : positive) (e : Z) : Z :=
  if 0 <=? e then 10 * Z.pos m * 2 ^ e
  else arredonda_par (10 * Z.pos m) (2 ^ (- e)).

Definition sinal (s : bool) : string := if s then "-" else "".

Definition fmt_1f (x : float) : string :=
  match Prim2SF x with
  | S754_nan => "nan"
  | S754_infinity s => sinal s ++ "inf"
  | S754_zero s => sinal s ++ "0.0"
  | S754_finite s m e =>
      let n := decimos m e in
      sinal s ++ decimal_de_Z (n / 10) ++ "." ++ decimal_de_Z (n mod 10)
  end.

(** ** Period diagnosis *)

Definition diagnostico_periodo (media_itu p_alerta p_perigo p_emerg : float) : string :=
  if (media_itu <=? 70)%float then
    "No geral, o período ficou em conforto térmico (ITU médio " ++ fmt_1f media_itu ++ "). "
    ++ "Mesmo assim, continue garantindo água e sombra."
  else if (media_itu <=? 78)%float then
    "O período teve alerta (ITU médio " ++ fmt_1f media_itu ++ "). "
    ++ "Tivemos " ++ fmt_1f p_alerta ++ "% dos dias em alerta. Reforce sombra e água."
  else if (media_itu <=? 82)%float then
    "O período teve risco alto de estresse térmico (ITU médio " ++ fmt_1f media_itu ++ "). "
    ++ "Tivemos " ++ fmt_1f p_perigo
    ++ "% dos dias em perigo. Intensifique resfriamento e evite manejo no calor."
  else
    "O período foi crítico (ITU médio " ++ fmt_1f media_itu ++ "). "
    ++ "Tivemos " ++ fmt_1f p_emerg
    ++ "% dos dias em emergência. Priorize resfriamento imediato e constante.".

(** ** Calendar

    The fields of a date given as days since 1970-01-01 (proleptic
    Gregorian calendar), and the day number of a civil date. *)

Definition civil_from_days (dia : Z) : Z * Z * Z :=
  let z := dia + 719468 in
  let era := z / 146097 in
  let doe := z mod 146097 in
  let yoe := (doe - doe / 1460 + doe / 36524 - doe / 146096) / 365 in
  let doy := doe - (365 * yoe + yoe / 4 - yoe / 100) in
  let mp := (5 * doy + 2) / 153 in
  let d := doy - (153 * mp + 2) / 5 + 1 in
  let m := if mp <? 10 then mp + 3 else mp - 9 in
  let y := yoe + era * 400 + (if m <=? 2 then 1 else 0) in
  (y, m, d).

Definition days_from_civil (y m d : Z) : Z :=
  let y' := if m <=? 2 then y - 1 else y in
  let era := y' / 400 in
  let yoe := y' mod 400 in
  let doy := (153 * (if 2 <? m then m - 3 else m + 9) + 2) / 5 + d - 1 in
  let doe := yoe * 365 + yoe / 4 - yoe / 100 + doy in
  era * 146097 + doe - 719468.

Definition dt_year (dia : Z) : Z := let '(y, _, _) := civil_from_days dia in y.
Definition dt_month (dia : Z) : Z := let '(_, m, _) := civil_from_days dia in m.
Definition dt_day (dia : Z) : Z := let '(_, _, d) := civil_from_days dia in d.

Definition dois_digitos (n : Z) : string :=
  decimal_de_Z (n / 10) ++ decimal_de_Z (n mod 10).

(** [strftime("%d/%m")] *)
Definition strftime_dm (dia : Z) : string :=
  dois_digitos (dt_day dia) ++ "/" ++ dois_digitos (dt_month dia).

(** The month names of [%b] (C locale). *)
Definition abrev_mes : list string :=
  ["Jan"; "Feb"; "Mar"; "Apr"; "May"; "Jun"; "Jul"; "Aug"; "Sep"; "Oct"; "Nov"; "Dec"].

(** [strftime("%b/%Y")], for the four-digit years a [Timestamp] can hold. *)
Definition strftime_bY (dia : Z) : string :=
  nth (Z.to_nat (dt_month dia - 1)) abrev_mes "" ++ "/" ++ decimal_de_Z (dt_year dia).

(** The calendar month of a date, counted from year 0: the bin of the
    month-end resampling. *)
Definition mes_idx (dia : Z) : Z := 12 * dt_year dia + (dt_month dia - 1).

(** The last day of the month of index [k]: the bin's label. *)
Definition fim_do_mes (k : Z) : Z :=
  days_from_civil ((k + 1) / 12) ((k + 1) mod 12 + 1) 1 - 1.

(** ** Data frames *)

(** A row of the frame returned by [obter_dados_nasa_power]. *)
Record registro : Type := mk_registro {
  r_Data : Z;
  r_Ta : float;
  r_UR : float
}.

(** A row of the analysed frame: the columns [ITU] and [Classe] added. *)
Record linha : Type := mk_linha {
  Data : Z;
  Ta : float;
  UR : float;
  ITU : float;
  Classe : string
}.

(** A row of [df_plot].  [plot_Data] is the column [Data] of the first
    three branches of [preparar_df_plot] and the column [Mes] of the
    fourth. *)
Record ponto : Type := mk_ponto {
  plot_Data : Z;
  plot_ITU : float;
  plot_Label : string
}.

Definition float_of_nat (n : nat) : float :=
  PrimFloat.of_uint63 (Uint63.of_Z (Z.of_nat n)).

(** [mapa_mes] of the climatology branch. *)
Definition mapa_mes : list (Z * string) :=
  [(1, "Jan"); (2, "Fev"); (3, "Mar"); (4, "Abr"); (5, "Mai"); (6, "Jun");
   (7, "Jul"); (8, "Ago"); (9, "Set"); (10, "Out"); (11, "Nov"); (12, "Dez")].

Fixpoint dict_get (k : Z) (d : list (Z * string)) : option string :=
  match d with
  | [] => None
  | (k', v) :: d' => if k =? k' then Some v else dict_get k d'
  end.

(** [Series.map(dict)]: a key outside the dictionary maps to a missing
    value, printed [nan]; month numbers never are. *)
Definition map_dict (d : list (Z * string)) (k : Z) : string :=
  match dict_get k d with Some v => v | None => "nan" end.

(** The distinct keys of a grouping, ascending. *)
Fixpoint insere_chave (k : Z) (ks : list Z) : list Z :=
  match ks with
  | [] => [k]
  | h :: t =>
      if k <? h then k :: ks
      else if k =? h then ks
      else h :: insere_chave k t
  end.

Definition chaves (ks : list Z) : list Z := fold_right insere_chave [] ks.

(** The integers [a], [a+1], ..., [a+n-1]. *)
Definition intervalo (a : Z) (n : nat) : list Z :=
  map (fun i => a + Z.of_nat i) (seq 0 n).

(** [.mean()] of a float column, over the summation [soma] of the numeric
    library: missing values ([nan]) are skipped and the mean of nothing is
    [nan]. *)
Definition pd_mean (soma : list float -> float) (xs : list float) : float :=
  match filter (fun x => negb (PrimFloat.is_nan x)) xs with
  | [] => nan
  | y :: ys => (soma (y :: ys) / float_of_nat (List.length (y :: ys)))%float
  end.

(** [.mean()] of a boolean column: the share of [True]. *)
Definition pd_mean_bool (bs : list bool) : float :=
  (float_of_nat (List.length (filter (fun b => b) bs))
   / float_of_nat (List.length bs))%float.

(** The earliest and the latest of the dates [d :: ds]. *)
Definition menor_data (d : Z) (ds : list Z) : Z := fold_right Z.min d ds.
Definition maior_data (d : Z) (ds : list Z) : Z := fold_right Z.max d ds.

Section Pandas.

(** The floating-point summations of the numeric library: the one that
    reduces a whole column and the one that reduces the rows of a bin or
    of a group.  The order in which they add the terms is left open:
    nothing below depends on it. *)
Variable soma_serie : list float -> float.
Variable soma_grupo : list float -> float.

(** The rows of [df] whose date lies in [[ini, ini + 5)]. *)
Definition janela_5D (df : list linha) (ini : Z) : list linha :=
  filter (fun r => (ini <=? Data r) && (Data r <? ini + 5)) df.

(** [df.set_index("Data")[["ITU"]].resample("5D").mean().reset_index()]:
    bins of five days, closed on the left and labelled by their first
    day, from the earliest date of the frame up to the bin holding the
    latest one; every bin of that range is a row. *)
Definition resample_5D_mean (df : list linha) : list (Z * float) :=
  match map Data df with
  | [] => []
  | d :: ds =>
      let d0 := menor_data d ds in
      let d1 := maior_data d ds in
      map (fun ini => (ini, pd_mean soma_grupo (map ITU (janela_5D df ini))))
          (map (fun k => d0 + 5 * k) (intervalo 0 (S (Z.to_nat ((d1 - d0) / 5)))))
  end.

(** The rows of [df] dated in the calendar month of index [k]. *)
Definition linhas_mes_ano (df : list linha) (k : Z) : list linha :=
  filter (fun r => mes_idx (Data r) =? k) df.

(** [df.set_index("Data")[["ITU"]].resample("M").mean().reset_index()]:
    one bin per calendar month, labelled by the month's last day, from
    the month of the earliest date to the month of the latest one;
    every month of that range is a row. *)
Definition resample_M_mean (df : list linha) : list (Z * float) :=
  match map Data df with
  | [] => []
  | d :: ds =>
      let k0 := mes_idx (menor_data d ds) in
      let k1 := mes_idx (maior_data d ds) in
      map (fun k => (fim_do_mes k, pd_mean soma_grupo (map ITU (linhas_mes_ano df k))))
          (intervalo k0 (S (Z.to_nat (k1 - k0))))
  end.

(** The rows of [df] whose month number is [m]. *)
Definition grupo_Mes (df : list linha) (m : Z) : list linha :=
  filter (fun r => dt_month (Data r) =? m) df.

(** [df_tmp.groupby("Mes", as_index=False)["ITU"].mean()]: one row per
    key present, keys ascending. *)
Definition groupby_Mes_mean (df : list linha) : list (Z * float) :=
  map (fun m => (m, pd_mean soma_grupo (map ITU (grupo_Mes df m))))
      (chaves (map (fun r => dt_month (Data r)) df)).

Definition preparar_df_plot (df : list linha) (data_ini data_fim : Z)
  : list ponto * string :=
  let dias := (data_fim - data_ini) + 1 in
  if dias <=? 15 then
    (map (fun r => mk_ponto (Data r) (ITU r) (strftime_dm (Data r))) df,
     "ITU Diário")
  else if dias <=? 90 then
    (map (fun '(d, v) => mk_ponto d v (strftime_dm d)) (resample_5D_mean df),
     "ITU (Média a cada 5 dias)")
  else if dias <? 365 then
    (map (fun '(d, v) => mk_ponto d v (strftime_bY d)) (resample_M_mean df),
     "ITU Médio Mensal")
  else
    (map (fun '(m, v) => mk_ponto m v (map_dict mapa_mes m)) (groupby_Mes_mean df),
     "ITU Médio Mensal (média de todos os anos)").

(** ** The chart *)

Record barra : Type := mk_barra {
  b_label : string;
  b_altura : float;
  b_cor : string;
  b_texto : option string;     (* the value written inside the bar *)
  b_tick_visivel : bool
}.

Record figura : Type := mk_figura {
  fig_titulo : string;
  fig_ylabel : string;
  fig_linhas_ref : list float;
  fig_barras : list barra
}.

(** [cores = [cor_por_itu(v) for v in df_plot["ITU"]]] *)
Definition cores (df_plot : list ponto) : list string :=
  map (fun p => cor_por_itu (plot_ITU p)) df_plot.

Definition max_labels : Z := 18.

(** A tick label stays visible unless there are more than [max_labels]
    bars and its position is not a multiple of the step. *)
Definition tick_visivel (n i : Z) : bool :=
  if max_labels <? n
  then (i mod ((n + max_labels - 1) / max_labels) =? 0)
  else true.

Definition plot_barras_itu (df_plot : list ponto) (titulo : string) : figura :=
  let n := Z.of_nat (List.length df_plot) in
  mk_figura titulo "ITU" [70; 78; 82]%float
    (map (fun '(i, (p, cor)) =>
            mk_barra (plot_Label p) (plot_ITU p) cor
              (if (10 <=? plot_ITU p)%float then Some (fmt_1f (plot_ITU p)) else None)
              (tick_visivel n (Z.of_nat i)))
         (combine (seq 0 (List.length df_plot)) (combine df_plot (cores df_plot)))).

(** ** The report

    What [gerar_pdf_relatorio] prints, before line splitting and page
    layout, and the chart it embeds. *)
Record relatorio : Type := mk_relatorio {
  rel_media : string;
  rel_classe : string;
  rel_diag : string;
  rel_frequencia : list string;
  rel_recomendacao : string;
  rel_grafico : figura
}.

Definition gerar_pdf_relatorio (media_itu : float) (classe_media diag_texto : string)
    (p_alerta p_perigo p_emerg : float) (fig_matplotlib : figura) : relatorio :=
  mk_relatorio
    ("ITU médio do período: " ++ fmt_1f media_itu)
    ("Classificação: " ++ classe_media)
    diag_texto
    ["Alerta: " ++ fmt_1f p_alerta ++ "% dos dias";
     "Perigo: " ++ fmt_1f p_perigo ++ "% dos dias";
     "Emergência: " ++ fmt_1f p_emerg ++ "% dos dias"]
    (recomendacao_por_classe classe_media)
    fig_matplotlib.

(** ** The analysis flow *)

Record analise : Type := mk_analise {
  a_df : list linha;
  a_media_itu : float;
  a_classe_media : string;
  a_p_alerta : float;
  a_p_perigo : float;
  a_p_emerg : float;
  a_diag : string;
  a_df_plot : list ponto;
  a_titulo : string;
  a_fig : figura;
  a_cor_card : string;
  a_pdf : relatorio
}.

(** The script either stops on a warning ([st.warning] then [st.stop])
    or goes through to the results. *)
Inductive resultado : Type :=
| Parado (aviso : string)
| Analisado (a : analise).

Definition percentual (df : list linha) (classe : string) : float :=
  (pd_mean_bool (map (fun r => String.eqb (Classe r) classe) df) * 100)%float.

Definition analisar (dados : list registro) (data_ini data_fim : Z) : resultado :=
  match dados with
  | [] => Parado "Não foi possível obter dados para este local/período."
  | _ :: _ =>
      let df :=
        map (fun r =>
               let itu := calcular_itu (r_Ta r) (r_UR r) in
               mk_linha (r_Data r) (r_Ta r) (r_UR r) itu (classificar_itu itu))
            dados in
      let media_itu := pd_mean soma_serie (map ITU df) in
      let classe_media := classificar_itu media_itu in
      let p_alerta := percentual df "Alerta" in
      let p_perigo := percentual df "Perigo" in
      let p_emerg := percentual df "Emergência" in
      let diag := diagnostico_periodo media_itu p_alerta p_perigo p_emerg in
      let '(df_plot, titulo) := preparar_df_plot df data_ini data_fim in
      let fig := plot_barras_itu df_plot titulo in
      Analisado
        (mk_analise df media_itu classe_media p_alerta p_perigo p_emerg diag
           df_plot titulo fig (cor_por_itu media_itu)
           (gerar_pdf_relatorio media_itu classe_media diag
              p_alerta p_perigo p_emerg fig))
  end.

End Pandas.

(** A summation for running the definitions: the terms added one after
    the other, from zero. *)
Definition soma_sequencial (xs : list float) : float :=
  fold_left PrimFloat.add xs 0%float.

(** ** The lines of the report

    [gerar_pdf_relatorio] cuts the diagnosis and the advice in lines of
    [max_chars] characters,
    [[texto[i:i+max_chars] for i in range(0, len(texto), max_chars)]],
    and prints the first four lines of the one and the first three of the
    other.  A text is the list of its characters. *)
Definition max_chars : nat := 95.

Definition fatias_de {A : Type} (n : nat) (texto : list A) : list (list A) :=
  map (fun j => firstn n (skipn (j * n) texto))
      (seq 0 ((List.length texto + n - 1) / n)).

Definition linhas_do_diagnostico {A : Type} (diag_texto : list A) : list (list A) :=
  firstn 4 (fatias_de max_chars diag_texto).

Definition linhas_da_recomendacao {A : Type} (rec : list A) : list (list A) :=
  firstn 3 (fatias_de max_chars rec).

(* ================================================================== *)
(** * Part II: the specification's vocabulary                          *)
(* ================================================================== *)

(** The index as the specification writes it. *)
Definition computeIndex_spec (airTemp relHumidity : float) : float :=
  (0.8 * airTemp + (relHumidity * (airTemp - 14.3)) / 100 + 46.3)%float.

(** One fixed colour per category. *)
Definition colorFor (categoria : string) : string :=
  if String.eqb categoria "Normal" then "#2E7D32"
  else if String.eqb categoria "Alerta" then "#F9A825"
  else if String.eqb categoria "Perigo" then "#EF6C00"
  else "#C62828".

(** The narrative of each band, over the printed mean and the printed
    percentage of the band. *)
Definition texto_normal (media : string) : string :=
  "No geral, o período ficou em conforto térmico (ITU médio " ++ media ++ "). "
  ++ "Mesmo assim, continue garantindo água e sombra.".

Definition texto_alerta (media p_alerta : string) : string :=
  "O período teve alerta (ITU médio " ++ media ++ "). "
  ++ "Tivemos " ++ p_alerta ++ "% dos dias em alerta. Reforce sombra e água.".

Definition texto_perigo (media p_perigo : string) : string :=
  "O período teve risco alto de estresse térmico (ITU médio " ++ media ++ "). "
  ++ "Tivemos " ++ p_perigo
  ++ "% dos dias em perigo. Intensifique resfriamento e evite manejo no calor.".

Definition texto_emergencia (media p_emerg : string) : string :=
  "O período foi crítico (ITU médio " ++ media ++ "). "
  ++ "Tivemos " ++ p_emerg
  ++ "% dos dias em emergência. Priorize resfriamento imediato e constante.".

(** The period length in days. *)
Definition dias_do_periodo (data_ini data_fim : Z) : Z := (data_fim - data_ini) + 1.

(** The four granularities and their selection, first match first. *)
Inductive granularidade : Type := Diario | CincoDias | Mensal | Climatologia.

Definition granularidade_de (D : Z) : granularidade :=
  if D <=? 15 then Diario
  else if D <=? 90 then CincoDias
  else if D <? 365 then Mensal
  else Climatologia.

Definition titulo_de (g : granularidade) : string :=
  match g with
  | Diario => "ITU Diário"
  | CincoDias => "ITU (Média a cada 5 dias)"
  | Mensal => "ITU Médio Mensal"
  | Climatologia => "ITU Médio Mensal (média de todos os anos)"
  end.

(** The points of each granularity. *)
Definition pontos_diarios (df : list linha) : list ponto :=
  map (fun r => mk_ponto (Data r) (ITU r) (strftime_dm (Data r))) df.

Definition ponto_5D (soma : list float -> float) (df : list linha) (ini : Z) : ponto :=
  mk_ponto ini (pd_mean soma (map ITU (janela_5D df ini))) (strftime_dm ini).

Definition ponto_mensal (soma : list float -> float) (df : list linha) (k : Z) : ponto :=
  mk_ponto (fim_do_mes k) (pd_mean soma (map ITU (linhas_mes_ano df k)))
    (strftime_bY (fim_do_mes k)).

Definition ponto_climatologia (soma : list float -> float) (df : list linha) (m : Z) : ponto :=
  mk_ponto m (pd_mean soma (map ITU (grupo_Mes df m))) (map_dict mapa_mes m).

(** The first days of the five-day windows of a frame. *)
Definition inicios_5D (df : list linha) : list Z :=
  match map Data df with
  | [] => []
  | d :: ds =>
      map (fun k => menor_data d ds + 5 * k)
          (intervalo 0 (S (Z.to_nat ((maior_data d ds - menor_data d ds) / 5))))
  end.

(** The calendar months from the month of the earliest row to the month
    of the latest one. *)
Definition meses_do_periodo (df : list linha) : list Z :=
  match map Data df with
  | [] => []
  | d :: ds =>
      intervalo (mes_idx (menor_data d ds))
        (S (Z.to_nat (mes_idx (maior_data d ds) - mes_idx (menor_data d ds))))
  end.

(** The month numbers that occur in a frame, ascending. *)
Definition meses_presentes (df : list linha) : list Z :=
  chaves (map (fun r => dt_month (Data r)) df).

Definition pontos_de (soma : list float -> float) (g : granularidade)
    (df : list linha) : list ponto :=
  match g with
  | Diario => pontos_diarios df
  | CincoDias => map (ponto_5D soma df) (inicios_5D df)
  | Mensal => map (ponto_mensal soma df) (meses_do_periodo df)
  | Climatologia => map (ponto_climatologia soma df) (meses_presentes df)
  end.

(** The steps of [civil_from_days], named: the year of the 400-year era
    (counted from March) that holds the day [doe] of the era, the first
    day of such a year, the month counted from March (0 is March, 11
    February) and the first day of such a month in its year. *)
Definition yoe_de (doe : Z) : Z :=
  (doe - doe / 1460 + doe / 36524 - doe / 146096) / 365.

Definition inicio_ano (y : Z) : Z := 365 * y + y / 4 - y / 100.

Definition mp_do_doe (doe : Z) : Z :=
  (5 * (doe - inicio_ano (yoe_de doe)) + 2) / 153.

Definition mp_de (dia : Z) : Z := mp_do_doe ((dia + 719468) mod 146097).

Definition inicio_mes (t : Z) : Z := (153 * t + 2) / 5.

(** The bands in increasing order of risk. *)
Definition nivel (classe : string) : nat :=
  if String.eqb classe "Normal" then 0
  else if String.eqb classe "Alerta" then 1
  else if String.eqb classe "Perigo" then 2
  else 3.

(* ================================================================== *)
(** * Part III: properties                                             *)
(* ================================================================== *)

(** ** Comparisons of binary64 numbers *)

Lemma SFcompare_antisym (x y : spec_float) :
  SFcompare y x = option_map CompOpp (SFcompare x y).
Proof.
  destruct x as [sx|sx| |sx mx ex], y as [sy|sy| |sy my ey];
    try destruct sx; try destruct sy; simpl; try reflexivity.
  - rewrite (Z.compare_antisym ey ex).
    destruct (ey ?= ex); simpl; try reflexivity.
    change (PosDef.Pos.compare_cont Eq mx my) with (Pos.compare mx my).
    change (PosDef.Pos.compare_cont Eq my mx) with (Pos.compare my mx).
    rewrite (Pos.compare_antisym mx my).
    now destruct (Pos.compare mx my).
  - rewrite (Z.compare_antisym ey ex).
    destruct (ey ?= ex); simpl; try reflexivity.
    change (PosDef.Pos.compare_cont Eq mx my) with (Pos.compare mx my).
    change (PosDef.Pos.compare_cont Eq my mx) with (Pos.compare my mx).
    rewrite (Pos.compare_antisym mx my).
    now destruct (Pos.compare mx my).
Qed.

Lemma SFltb_not_SFleb (x y : spec_float) :
  SFltb y x = true -> SFleb x y = false.
Proof.
  unfold SFltb, SFleb. rewrite (SFcompare_antisym x y).
  destruct (SFcompare x y) as [[ | | ]|]; simpl; congruence.
Qed.

Lemma SFleb_total (x y : spec_float) :
  x <> S754_nan -> y <> S754_nan -> SFleb x y = false -> SFltb y x = true.
Proof.
  unfold SFltb, SFleb. rewrite (SFcompare_antisym x y).
  intros Hx Hy.
  destruct (SFcompare x y) as [[ | | ]|] eqn:E; simpl; try congruence.
  destruct x, y; simpl in E; congruence.
Qed.

Ltac cmp_cases :=
  repeat match goal with
    | |- context [Z.compare ?a ?b] => destruct (Z.compare_spec a b)
    | |- context [Pos.compare ?a ?b] => destruct (Pos.compare_spec a b)
    end.

Lemma SFleb_trans (x y z : spec_float) :
  SFleb x y = true -> SFleb y z = true -> SFleb x z = true.
Proof.
  unfold SFleb.
  destruct x as [sx|sx| |sx mx ex], y as [sy|sy| |sy my ey], z as [sz|sz| |sz mz ez];
    try destruct sx; try destruct sy; try destruct sz; simpl;
    try reflexivity; try discriminate;
    change PosDef.Pos.compare_cont with Pos.compare_cont;
    fold (Pos.compare mx my); fold (Pos.compare my mz); fold (Pos.compare mx mz);
    cmp_cases; simpl; try reflexivity; try discriminate; try lia.
Qed.

Lemma SFcompare_refl (x : spec_float) :
  x <> S754_nan -> SFcompare x x = Some Eq.
Proof.
  destruct x as [s|s| |s m e]; try destruct s; simpl; try congruence; intros _;
    rewrite Z.compare_refl;
    change (PosDef.Pos.compare_cont Eq m m) with (Pos.compare m m);
    now rewrite Pos.compare_refl.
Qed.

Lemma is_nan_Prim2SF (v : float) :
  PrimFloat.is_nan v = true <-> Prim2SF v = S754_nan.
Proof.
  unfold PrimFloat.is_nan. rewrite FloatAxioms.eqb_spec. unfold SFeqb. split.
  - intros H. destruct (Prim2SF v) eqn:E; try reflexivity;
      rewrite SFcompare_refl in H by discriminate; discriminate.
  - intros ->. reflexivity.
Qed.

Lemma is_nan_eq (v : float) : PrimFloat.is_nan v = true <-> v = nan.
Proof.
  rewrite is_nan_Prim2SF. split.
  - intros H. apply Prim2SF_inj. rewrite H. reflexivity.
  - intros ->. reflexivity.
Qed.

Lemma not_nan_Prim2SF (v : float) :
  PrimFloat.is_nan v = false -> Prim2SF v <> S754_nan.
Proof.
  intros H E. apply is_nan_Prim2SF in E. congruence.
Qed.

(** [c < v] excludes [v <= c]. *)
Lemma ltb_not_leb (c v : float) :
  (c <? v)%float = true -> (v <=? c)%float = false.
Proof. rewrite FloatAxioms.ltb_spec, FloatAxioms.leb_spec. apply SFltb_not_SFleb. Qed.

(** Two numbers are comparable: when [v <= c] fails, [c < v]. *)
Lemma not_leb_ltb (c v : float) :
  PrimFloat.is_nan c = false -> PrimFloat.is_nan v = false ->
  (v <=? c)%float = false -> (c <? v)%float = true.
Proof.
  intros Hc Hv. rewrite FloatAxioms.ltb_spec, FloatAxioms.leb_spec.
  apply SFleb_total; now apply not_nan_Prim2SF.
Qed.

Lemma leb_trans (x y z : float) :
  (x <=? y)%float = true -> (y <=? z)%float = true -> (x <=? z)%float = true.
Proof. rewrite !FloatAxioms.leb_spec. apply SFleb_trans. Qed.

(** Nothing compares with [nan]. *)
Lemma leb_nan_l (c : float) : (nan <=? c)%float = false.
Proof. rewrite FloatAxioms.leb_spec. reflexivity. Qed.

Lemma leb_not_nan (v c : float) :
  (v <=? c)%float = true -> PrimFloat.is_nan v = false.
Proof.
  intros H. destruct (PrimFloat.is_nan v) eqn:E; [|reflexivity].
  apply is_nan_eq in E. subst v. rewrite leb_nan_l in H. discriminate.
Qed.

Lemma ltb_not_nan (c v : float) :
  (c <? v)%float = true -> PrimFloat.is_nan v = false.
Proof.
  intros H. destruct (PrimFloat.is_nan v) eqn:E; [|reflexivity].
  apply is_nan_eq in E. subst v. rewrite FloatAxioms.ltb_spec in H.
  unfold SFltb in H. destruct (Prim2SF c); simpl in H; discriminate.
Qed.

(** Above a threshold is above every lower one. *)
Lemma not_leb_mono (lo hi v : float) :
  (lo <=? hi)%float = true -> (v <=? hi)%float = false -> (v <=? lo)%float = false.
Proof.
  intros Hc H. destruct (v <=? lo)%float eqn:E; [|reflexivity].
  rewrite (leb_trans v lo hi E Hc) in H. discriminate.
Qed.

(** ** The bands of the classifier *)

Lemma classificar_itu_Normal (v : float) :
  classificar_itu v = "Normal" <-> (v <=? 70)%float = true.
Proof.
  unfold classificar_itu.
  destruct (v <=? 70)%float; [now split|].
  destruct (v <=? 78)%float; [split; discriminate|].
  destruct (v <=? 82)%float; split; discriminate.
Qed.

Lemma classificar_itu_Alerta (v : float) :
  classificar_itu v = "Alerta" <-> (70 <? v)%float = true /\ (v <=? 78)%float = true.
Proof.
  unfold classificar_itu. split.
  - destruct (v <=? 70)%float eqn:E1; [discriminate|].
    destruct (v <=? 78)%float eqn:E2.
    + intros _. split; [|reflexivity].
      apply not_leb_ltb; [reflexivity| |exact E1]. now apply (leb_not_nan v 78).
    + destruct (v <=? 82)%float; discriminate.
  - intros [H1 H2]. now rewrite (ltb_not_leb _ _ H1), H2.
Qed.

Lemma classificar_itu_Perigo (v : float) :
  classificar_itu v = "Perigo" <-> (78 <? v)%float = true /\ (v <=? 82)%float = true.
Proof.
  unfold classificar_itu. split.
  - destruct (v <=? 70)%float eqn:E1; [discriminate|].
    destruct (v <=? 78)%float eqn:E2; [discriminate|].
    destruct (v <=? 82)%float eqn:E3; [|discriminate].
    intros _. split; [|reflexivity].
    apply not_leb_ltb; [reflexivity| |exact E2]. now apply (leb_not_nan v 82).
  - intros [H1 H2]. pose proof (ltb_not_leb _ _ H1) as H78.
    rewrite (not_leb_mono 70 78 v eq_refl H78), H78, H2. reflexivity.
Qed.

Lemma classificar_itu_Emergencia (v : float) :
  classificar_itu v = "Emergência" <->
  (82 <? v)%float = true \/ PrimFloat.is_nan v = true.
Proof.
  unfold classificar_itu. split.
  - destruct (v <=? 70)%float eqn:E1; [discriminate|].
    destruct (v <=? 78)%float eqn:E2; [discriminate|].
    destruct (v <=? 82)%float eqn:E3; [discriminate|].
    intros _. destruct (PrimFloat.is_nan v) eqn:N; [now right|left].
    now apply not_leb_ltb.
  - intros [H|H].
    + pose proof (ltb_not_leb _ _ H) as H82.
      pose proof (not_leb_mono 78 82 v eq_refl H82) as H78.
      rewrite (not_leb_mono 70 78 v eq_refl H78), H78, H82. reflexivity.
    + apply is_nan_eq in H. subst v. reflexivity.
Qed.

(** C1, as the code has it.  For every index value [v], [classificar_itu]
    answers Normal iff [v <= 70], Alerta iff [70 < v <= 78], Perigo iff
    [78 < v <= 82], and Emergência iff [v > 82] or [v] is not a number;
    the boundary values 70, 78 and 82 fall in the lower band and 70.0001
    and 82.0001 in the upper one. *)
Theorem classificar_itu_faixas : forall v : float,
  (classificar_itu v = "Normal" <-> (v <=? 70)%float = true) /\
  (classificar_itu v = "Alerta" <->
     (70 <? v)%float = true /\ (v <=? 78)%float = true) /\
  (classificar_itu v = "Perigo" <->
     (78 <? v)%float = true /\ (v <=? 82)%float = true) /\
  (classificar_itu v = "Emergência" <->
     (82 <? v)%float = true \/ PrimFloat.is_nan v = true) /\
  classificar_itu 70.0 = "Normal" /\
  classificar_itu 70.0001 = "Alerta" /\
  classificar_itu 78.0 = "Alerta" /\
  classificar_itu 82.0 = "Perigo" /\
  classificar_itu 82.0001 = "Emergência".
Proof.
  intros v.
  split; [apply classificar_itu_Normal|].
  split; [apply classificar_itu_Alerta|].
  split; [apply classificar_itu_Perigo|].
  split; [apply classificar_itu_Emergencia|].
  repeat split; reflexivity.
Qed.

(** C1, the input on which the claim as written fails: [nan] is
    classified Emergência although [nan > 82] does not hold. *)
Lemma classificar_itu_nan :
  classificar_itu nan = "Emergência" /\ (82 <? nan)%float = false.
Proof. split; reflexivity. Qed.

(** ** The index formula *)

(** C5.  [calcular_itu] computes 0.8*Ta + (UR*(Ta - 14.3))/100 + 46.3 for
    every temperature and humidity, the analysis flow fills the column
    ITU of every row with it, and at (30.0, 60.0) the index is 79.72,
    which is classified Perigo (Danger). *)
Theorem calcular_itu_formula :
  (forall ta_c ur_pct : float,
     calcular_itu ta_c ur_pct = computeIndex_spec ta_c ur_pct) /\
  (forall soma_serie soma_grupo dados data_ini data_fim,
     match analisar soma_serie soma_grupo dados data_ini data_fim with
     | Parado _ => dados = []
     | Analisado a =>
         map (fun l => (Data l, Ta l, UR l)) (a_df a)
         = map (fun r => (r_Data r, r_Ta r, r_UR r)) dados /\
         Forall (fun l => ITU l = computeIndex_spec (Ta l) (UR l)) (a_df a)
     end) /\
  calcular_itu 30.0 60.0 = 79.72%float /\
  classificar_itu (calcular_itu 30.0 60.0) = "Perigo".
Proof.
  split; [reflexivity|]. split; [|split; reflexivity].
  intros ss sg dados ini fim. unfold analisar.
  destruct dados as [|r0 rs]; [reflexivity|].
  destruct (preparar_df_plot _ _ _ _) as [df_plot titulo]. cbn [a_df].
  split.
  - rewrite map_map. reflexivity.
  - apply Forall_forall. intros l Hl. apply in_map_iff in Hl.
    destruct Hl as [r [<- _]]. reflexivity.
Qed.

(** ** Colours *)

Lemma cor_por_itu_colorFor (v : float) :
  cor_por_itu v = colorFor (classificar_itu v).
Proof.
  unfold cor_por_itu, classificar_itu.
  destruct (v <=? 70)%float; [reflexivity|].
  destruct (v <=? 78)%float; [reflexivity|].
  destruct (v <=? 82)%float; reflexivity.
Qed.

Lemma map_combine_seq {A B C : Type} (g : nat -> A -> B -> C)
    (h : C -> B) (xs : list A) (ys : list B) (i : nat) :
  (forall n a b, h (g n a b) = b) ->
  List.length xs = List.length ys ->
  map h (map (fun '(n, (a, b)) => g n a b)
           (combine (seq i (List.length xs)) (combine xs ys))) = ys.
Proof.
  intros Hh. revert ys i.
  induction xs as [|x xs IH]; intros [|y ys] i Hlen; try discriminate; [reflexivity|].
  simpl. rewrite Hh. f_equal. apply IH. now injection Hlen.
Qed.

Lemma plot_barras_itu_cores (df_plot : list ponto) (titulo : string) :
  map b_cor (fig_barras (plot_barras_itu df_plot titulo)) = cores df_plot.
Proof.
  unfold plot_barras_itu. cbn [fig_barras].
  apply map_combine_seq.
  - reflexivity.
  - unfold cores. now rewrite length_map.
Qed.

(** C9.  The colour of an index value is a function of its category
    alone: [cor_por_itu] is [colorFor] after [classificar_itu], so equal
    categories give equal colours; the chart colours every bar with this
    mapping applied to the bar's index value, and the report embeds that
    very chart. *)
Theorem cor_por_categoria :
  (forall v : float, cor_por_itu v = colorFor (classificar_itu v)) /\
  (forall x y : float,
     classificar_itu x = classificar_itu y -> cor_por_itu x = cor_por_itu y) /\
  (forall (df_plot : list ponto) (titulo : string),
     map b_cor (fig_barras (plot_barras_itu df_plot titulo))
     = map (fun p => colorFor (classificar_itu (plot_ITU p))) df_plot) /\
  (forall media_itu classe_media diag_texto p_alerta p_perigo p_emerg fig,
     rel_grafico (gerar_pdf_relatorio media_itu classe_media diag_texto
                    p_alerta p_perigo p_emerg fig) = fig).
Proof.
  split; [exact cor_por_itu_colorFor|]. split; [|split].
  - intros x y H. now rewrite !cor_por_itu_colorFor, H.
  - intros df_plot titulo. rewrite plot_barras_itu_cores. unfold cores.
    apply map_ext. intros p. apply cor_por_itu_colorFor.
  - reflexivity.
Qed.

(** ** Selection of the granularity *)

Lemma preparar_df_plot_granularidade (soma_grupo : list float -> float)
    (df : list linha) (data_ini data_fim : Z) :
  preparar_df_plot soma_grupo df data_ini data_fim
  = (pontos_de soma_grupo (granularidade_de (dias_do_periodo data_ini data_fim)) df,
     titulo_de (granularidade_de (dias_do_periodo data_ini data_fim))).
Proof.
  unfold preparar_df_plot, granularidade_de, dias_do_periodo.
  destruct (data_fim - data_ini + 1 <=? 15); [reflexivity|].
  destruct (data_fim - data_ini + 1 <=? 90).
  { cbn [pontos_de titulo_de]. f_equal.
    unfold resample_5D_mean, inicios_5D.
    destruct (map Data df); [reflexivity|]. now rewrite !map_map. }
  destruct (data_fim - data_ini + 1 <? 365).
  { cbn [pontos_de titulo_de]. f_equal.
    unfold resample_M_mean, meses_do_periodo.
    destruct (map Data df); [reflexivity|]. now rewrite !map_map. }
  cbn [pontos_de titulo_de]. f_equal.
  unfold groupby_Mes_mean, meses_presentes. now rewrite !map_map.
Qed.

Lemma granularidade_de_cases (D : Z) :
  (granularidade_de D = Diario <-> D <= 15) /\
  (granularidade_de D = CincoDias <-> 15 < D <= 90) /\
  (granularidade_de D = Mensal <-> 90 < D < 365) /\
  (granularidade_de D = Climatologia <-> 365 <= D).
Proof.
  unfold granularidade_de.
  destruct (Z.leb_spec D 15); [repeat split; intros; try lia; discriminate|].
  destruct (Z.leb_spec D 90); [repeat split; intros; try lia; discriminate|].
  destruct (Z.ltb_spec D 365); repeat split; intros; try lia; discriminate.
Qed.

(** C4.  The granularity depends on the period only through its length
    D = (data_fim - data_ini).days + 1, the branches tested in order:
    D <= 15 gives one point per row (per day), 15 < D <= 90 the five-day
    windows, 90 < D < 365 the (year, month) bins and D >= 365 the
    month-of-year climatology; D = 15 is daily, D = 90 five-day and
    D = 365 climatology. *)
Theorem granularidade_por_dias :
  forall (soma_grupo : list float -> float) (df : list linha) (data_ini data_fim : Z),
    let D := dias_do_periodo data_ini data_fim in
    preparar_df_plot soma_grupo df data_ini data_fim
    = (pontos_de soma_grupo (granularidade_de D) df, titulo_de (granularidade_de D)) /\
    (forall ini' fim' : Z,
       dias_do_periodo ini' fim' = D ->
       preparar_df_plot soma_grupo df ini' fim'
       = preparar_df_plot soma_grupo df data_ini data_fim) /\
    (granularidade_de D = Diario <-> D <= 15) /\
    (granularidade_de D = CincoDias <-> 15 < D <= 90) /\
    (granularidade_de D = Mensal <-> 90 < D < 365) /\
    (granularidade_de D = Climatologia <-> 365 <= D) /\
    List.length (pontos_de soma_grupo Diario df) = List.length df /\
    map (fun p => (plot_Data p, plot_ITU p)) (pontos_de soma_grupo Diario df)
    = map (fun r => (Data r, ITU r)) df /\
    granularidade_de 15 = Diario /\
    granularidade_de 90 = CincoDias /\
    granularidade_de 365 = Climatologia.
Proof.
  intros soma_grupo df data_ini data_fim D.
  split; [apply preparar_df_plot_granularidade|].
  split.
  { intros ini' fim' HD. rewrite !preparar_df_plot_granularidade.
    fold D. now rewrite HD. }
  pose proof (granularidade_de_cases D) as [H1 [H2 [H3 H4]]].
  repeat (split; [assumption|]).
  split; [apply length_map|].
  split; [cbn [pontos_de]; unfold pontos_diarios; now rewrite map_map|].
  repeat split; reflexivity.
Qed.

(** C7.  On an empty frame [preparar_df_plot] returns no point, with the
    title of the branch that the period length selects, whatever the
    period. *)
Theorem preparar_df_plot_vazio :
  forall (soma_grupo : list float -> float) (data_ini data_fim : Z),
    preparar_df_plot soma_grupo [] data_ini data_fim
    = ([], titulo_de (granularidade_de (dias_do_periodo data_ini data_fim))).
Proof.
  intros soma_grupo data_ini data_fim.
  rewrite preparar_df_plot_granularidade.
  now destruct (granularidade_de (dias_do_periodo data_ini data_fim)).
Qed.

(** ** The analysis flow *)

(** C6.  On an empty series the flow computes no summary: it stops on the
    warning of the empty-frame guard, an outcome that no other series
    gives; every non-empty series is analysed. *)
Theorem analisar_serie_vazia :
  forall (soma_serie soma_grupo : list float -> float) (data_ini data_fim : Z),
    analisar soma_serie soma_grupo [] data_ini data_fim
    = Parado "Não foi possível obter dados para este local/período." /\
    (forall dados : list registro,
       (exists aviso, analisar soma_serie soma_grupo dados data_ini data_fim
                      = Parado aviso) <-> dados = []) /\
    (forall dados : list registro,
       (exists a, analisar soma_serie soma_grupo dados data_ini data_fim
                  = Analisado a) <-> dados <> []).
Proof.
  intros ss sg ini fim. split; [reflexivity|]. split; intros dados.
  - split.
    + intros [aviso H]. destruct dados as [|r rs]; [reflexivity|].
      unfold analisar in H. destruct (preparar_df_plot _ _ _ _). discriminate.
    + intros ->. eexists. reflexivity.
  - split.
    + intros [a H] ->. discriminate.
    + intros Hne. destruct dados as [|r rs]; [congruence|].
      unfold analisar. destruct (preparar_df_plot _ _ _ _). eexists. reflexivity.
Qed.

Lemma diagnostico_periodo_faixa (media_itu p_alerta p_perigo p_emerg : float) :
  (classificar_itu media_itu = "Normal" ->
   diagnostico_periodo media_itu p_alerta p_perigo p_emerg
   = texto_normal (fmt_1f media_itu)) /\
  (classificar_itu media_itu = "Alerta" ->
   diagnostico_periodo media_itu p_alerta p_perigo p_emerg
   = texto_alerta (fmt_1f media_itu) (fmt_1f p_alerta)) /\
  (classificar_itu media_itu = "Perigo" ->
   diagnostico_periodo media_itu p_alerta p_perigo p_emerg
   = texto_perigo (fmt_1f media_itu) (fmt_1f p_perigo)) /\
  (classificar_itu media_itu = "Emergência" ->
   diagnostico_periodo media_itu p_alerta p_perigo p_emerg
   = texto_emergencia (fmt_1f media_itu) (fmt_1f p_emerg)).
Proof.
  unfold classificar_itu, diagnostico_periodo.
  destruct (media_itu <=? 70)%float;
    [repeat split; intros; try discriminate; reflexivity|].
  destruct (media_itu <=? 78)%float;
    [repeat split; intros; try discriminate; reflexivity|].
  destruct (media_itu <=? 82)%float;
    repeat split; intros; try discriminate; reflexivity.
Qed.

Lemma length_filter_eqb (c : string) (cs : list string) :
  List.length (filter (fun b : bool => b) (map (fun x => String.eqb x c) cs))
  = count_occ string_dec cs c.
Proof.
  induction cs as [|x cs IH]; [reflexivity|].
  simpl. destruct (String.eqb_spec x c) as [->|Hne].
  - destruct (string_dec c c); [|congruence]. simpl. now rewrite IH.
  - destruct (string_dec x c); [congruence|]. exact IH.
Qed.

(** The share of the rows of a class, in percent. *)
Lemma percentual_contagem (df : list linha) (classe : string) :
  percentual df classe
  = (float_of_nat (count_occ string_dec (map Classe df) classe)
     / float_of_nat (List.length df) * 100)%float.
Proof.
  unfold percentual, pd_mean_bool.
  rewrite <- (length_filter_eqb classe (map Classe df)).
  now rewrite !map_map, length_map.
Qed.

(** C8.  For every non-empty series the flow classifies the mean index
    with [classificar_itu], the classifier of the daily rows, and the
    diagnosis is the narrative of that band printed with the mean and the
    band's own percentage: Alerta with the share of Alerta days, Perigo
    with the share of Perigo days, Emergência with the share of Emergência
    days, and Normal with the mean alone. *)
Theorem diagnostico_por_faixa :
  forall (soma_serie soma_grupo : list float -> float)
         (dados : list registro) (data_ini data_fim : Z),
    dados <> [] ->
    exists a : analise,
      analisar soma_serie soma_grupo dados data_ini data_fim = Analisado a /\
      Forall (fun l => Classe l = classificar_itu (ITU l)) (a_df a) /\
      a_media_itu a = pd_mean soma_serie (map ITU (a_df a)) /\
      a_classe_media a = classificar_itu (a_media_itu a) /\
      a_p_alerta a
      = (float_of_nat (count_occ string_dec (map Classe (a_df a)) "Alerta")
         / float_of_nat (List.length (a_df a)) * 100)%float /\
      a_p_perigo a
      = (float_of_nat (count_occ string_dec (map Classe (a_df a)) "Perigo")
         / float_of_nat (List.length (a_df a)) * 100)%float /\
      a_p_emerg a
      = (float_of_nat (count_occ string_dec (map Classe (a_df a)) "Emergência")
         / float_of_nat (List.length (a_df a)) * 100)%float /\
      (a_classe_media a = "Normal" ->
       a_diag a = texto_normal (fmt_1f (a_media_itu a))) /\
      (a_classe_media a = "Alerta" ->
       a_diag a = texto_alerta (fmt_1f (a_media_itu a)) (fmt_1f (a_p_alerta a))) /\
      (a_classe_media a = "Perigo" ->
       a_diag a = texto_perigo (fmt_1f (a_media_itu a)) (fmt_1f (a_p_perigo a))) /\
      (a_classe_media a = "Emergência" ->
       a_diag a = texto_emergencia (fmt_1f (a_media_itu a)) (fmt_1f (a_p_emerg a))).
Proof.
  intros ss sg dados ini fim Hne.
  destruct dados as [|r0 rs]; [congruence|].
  unfold analisar. destruct (preparar_df_plot _ _ _ _) as [df_plot titulo].
  eexists. split; [reflexivity|].
  cbn [a_df a_media_itu a_classe_media a_p_alerta a_p_perigo a_p_emerg a_diag].
  split.
  { apply Forall_forall. intros l Hl. apply in_map_iff in Hl.
    destruct Hl as [r [<- _]]. reflexivity. }
  split; [reflexivity|]. split; [reflexivity|].
  split; [apply percentual_contagem|].
  split; [apply percentual_contagem|].
  split; [apply percentual_contagem|].
  apply diagnostico_periodo_faixa.
Qed.

(** C8 on a series of one day at 30 °C and 60 %: the mean is 79.72, the
    band Perigo, and the text prints 79.7 and 100.0. *)
Lemma diagnostico_por_faixa_witness :
  [mk_registro 18262 30 60] <> [] /\
  exists a : analise,
    analisar soma_sequencial soma_sequencial [mk_registro 18262 30 60] 18262 18262
    = Analisado a /\
    a_classe_media a = "Perigo" /\
    a_diag a = texto_perigo "79.7" "100.0".
Proof.
  assert (Hne : [mk_registro 18262 30 60] <> []) by discriminate.
  split; [exact Hne|].
  destruct (diagnostico_por_faixa soma_sequencial soma_sequencial
              [mk_registro 18262 30 60] 18262 18262 Hne)
    as [a [Ha [_ [_ [Hc [_ [Hp [_ [_ [_ [Hd _]]]]]]]]]]].
  exists a. split; [exact Ha|].
  assert (Hm : a_media_itu a = 79.72%float).
  { vm_compute in Ha. injection Ha as <-. reflexivity. }
  assert (Hdf : a_df a = [mk_linha 18262 30 60 79.72%float "Perigo"]).
  { vm_compute in Ha. injection Ha as <-. reflexivity. }
  rewrite Hm in Hc. split; [exact Hc|].
  rewrite (Hd Hc), Hm, Hp, Hdf. reflexivity.
Defined.

(** ** Dates of a frame and integer ranges *)

Lemma menor_data_spec (d : Z) (ds : list Z) :
  In (menor_data d ds) (d :: ds) /\ forall x, In x (d :: ds) -> menor_data d ds <= x.
Proof.
  unfold menor_data. induction ds as [|e ds [IHin IHle]]; simpl.
  - split; [now left|]. intros x [<-|[]]. lia.
  - split.
    + destruct (Z.min_spec e (fold_right Z.min d ds)) as [[_ ->]|[_ ->]].
      * right. now left.
      * simpl in IHin. destruct IHin as [H|H]; [now left|right; now right].
    + intros x [<-|[<-|H]].
      * specialize (IHle d (or_introl eq_refl)). lia.
      * lia.
      * specialize (IHle x (or_intror H)). lia.
Qed.

Lemma maior_data_spec (d : Z) (ds : list Z) :
  In (maior_data d ds) (d :: ds) /\ forall x, In x (d :: ds) -> x <= maior_data d ds.
Proof.
  unfold maior_data. induction ds as [|e ds [IHin IHle]]; simpl.
  - split; [now left|]. intros x [<-|[]]. lia.
  - split.
    + destruct (Z.max_spec e (fold_right Z.max d ds)) as [[_ ->]|[_ ->]].
      * simpl in IHin. destruct IHin as [H|H]; [now left|right; now right].
      * right. now left.
    + intros x [<-|[<-|H]].
      * specialize (IHle d (or_introl eq_refl)). lia.
      * lia.
      * specialize (IHle x (or_intror H)). lia.
Qed.

Lemma length_intervalo (a : Z) (n : nat) : List.length (intervalo a n) = n.
Proof. unfold intervalo. now rewrite length_map, length_seq. Qed.

Lemma in_intervalo (a : Z) (n : nat) (x : Z) :
  In x (intervalo a n) <-> a <= x < a + Z.of_nat n.
Proof.
  unfold intervalo. rewrite in_map_iff. split.
  - intros [i [<- Hi]]. apply in_seq in Hi. lia.
  - intros H. exists (Z.to_nat (x - a)). split; [lia|]. apply in_seq. lia.
Qed.

Lemma nth_error_intervalo (a : Z) (n i : nat) :
  (i < n)%nat -> nth_error (intervalo a n) i = Some (a + Z.of_nat i).
Proof.
  intros Hi. unfold intervalo.
  rewrite nth_error_map, nth_error_nth' with (d := 0%nat) by now rewrite length_seq.
  now rewrite seq_nth.
Qed.

Lemma in_janela_5D (df : list linha) (ini : Z) (r : linha) :
  In r (janela_5D df ini) <-> In r df /\ ini <= Data r < ini + 5.
Proof.
  unfold janela_5D. rewrite filter_In, andb_true_iff, Z.leb_le, Z.ltb_lt. tauto.
Qed.

Lemma in_linhas_mes_ano (df : list linha) (k : Z) (r : linha) :
  In r (linhas_mes_ano df k) <-> In r df /\ mes_idx (Data r) = k.
Proof. unfold linhas_mes_ano. now rewrite filter_In, Z.eqb_eq. Qed.

Lemma in_grupo_Mes (df : list linha) (m : Z) (r : linha) :
  In r (grupo_Mes df m) <-> In r df /\ dt_month (Data r) = m.
Proof. unfold grupo_Mes. now rewrite filter_In, Z.eqb_eq. Qed.

(** ** The mean *)

Lemma pd_mean_nil (soma : list float -> float) : pd_mean soma [] = nan.
Proof. reflexivity. Qed.

Lemma filter_all {A : Type} (f : A -> bool) (xs : list A) :
  Forall (fun x => f x = true) xs -> filter f xs = xs.
Proof.
  induction 1 as [|x xs Hx _ IH]; [reflexivity|]. simpl. now rewrite Hx, IH.
Qed.

(** Where no value is missing, the mean is the sum over the count. *)
Lemma pd_mean_sem_nan (soma : list float -> float) (xs : list float) :
  xs <> [] ->
  Forall (fun x => PrimFloat.is_nan x = false) xs ->
  pd_mean soma xs = (soma xs / float_of_nat (List.length xs))%float.
Proof.
  intros Hne Hall. unfold pd_mean. rewrite filter_all.
  - destruct xs; [congruence|reflexivity].
  - eapply Forall_impl; [|exact Hall]. intros x Hx. cbv beta. now rewrite Hx.
Qed.

(** ** Five-day windows *)

Lemma inicios_5D_cons (df : list linha) (d : Z) (ds : list Z) :
  map Data df = d :: ds ->
  inicios_5D df
  = map (fun k => menor_data d ds + 5 * k)
      (intervalo 0 (S (Z.to_nat ((maior_data d ds - menor_data d ds) / 5)))).
Proof. intros H. unfold inicios_5D. now rewrite H. Qed.

Lemma datas_limites (df : list linha) (d : Z) (ds : list Z) (r : linha) :
  map Data df = d :: ds -> In r df ->
  menor_data d ds <= Data r <= maior_data d ds.
Proof.
  intros H Hr. assert (Hin : In (Data r) (d :: ds)) by (rewrite <- H; now apply in_map).
  split; [now apply menor_data_spec|now apply maior_data_spec].
Qed.

Lemma nth_error_inicios_5D (df : list linha) (d : Z) (ds : list Z) (k : Z) :
  map Data df = d :: ds ->
  0 <= k <= (maior_data d ds - menor_data d ds) / 5 ->
  nth_error (inicios_5D df) (Z.to_nat k) = Some (menor_data d ds + 5 * k).
Proof.
  intros H Hk. rewrite (inicios_5D_cons df d ds H), nth_error_map.
  rewrite nth_error_intervalo by lia. cbn [option_map]. f_equal. lia.
Qed.

(** Every row lies in one window, and in one only. *)
Lemma janela_5D_unica (df : list linha) (d : Z) (ds : list Z) (r : linha) :
  map Data df = d :: ds -> In r df ->
  exists k : Z,
    0 <= k <= (maior_data d ds - menor_data d ds) / 5 /\
    In r (janela_5D df (menor_data d ds + 5 * k)) /\
    forall k' : Z, In r (janela_5D df (menor_data d ds + 5 * k')) -> k' = k.
Proof.
  intros H Hr. pose proof (datas_limites df d ds r H Hr) as [Hlo Hhi].
  set (d0 := menor_data d ds) in *. set (d1 := maior_data d ds) in *.
  exists ((Data r - d0) / 5).
  pose proof (Z.div_mod (Data r - d0) 5 ltac:(lia)) as Hdm.
  pose proof (Z.mod_pos_bound (Data r - d0) 5 ltac:(lia)) as Hm.
  split; [|split].
  - split; [apply Z.div_pos; lia|apply Z.div_le_mono; lia].
  - apply in_janela_5D. split; [exact Hr|lia].
  - intros k' Hk'. apply in_janela_5D in Hk'. destruct Hk' as [_ Hk'].
    apply Z.div_unique with (r := Data r - d0 - 5 * k'); lia.
Qed.

Lemma pontos_5D_periodo (soma_grupo : list float -> float) (df : list linha)
    (data_ini data_fim : Z) :
  15 < dias_do_periodo data_ini data_fim <= 90 ->
  preparar_df_plot soma_grupo df data_ini data_fim
  = (map (ponto_5D soma_grupo df) (inicios_5D df), "ITU (Média a cada 5 dias)").
Proof.
  intros HD. rewrite preparar_df_plot_granularidade.
  apply (granularidade_de_cases (dias_do_periodo data_ini data_fim)) in HD.
  now rewrite HD.
Qed.

Lemma pontos_mensais_periodo (soma_grupo : list float -> float) (df : list linha)
    (data_ini data_fim : Z) :
  90 < dias_do_periodo data_ini data_fim < 365 ->
  preparar_df_plot soma_grupo df data_ini data_fim
  = (map (ponto_mensal soma_grupo df) (meses_do_periodo df), "ITU Médio Mensal").
Proof.
  intros HD. rewrite preparar_df_plot_granularidade.
  apply (granularidade_de_cases (dias_do_periodo data_ini data_fim)) in HD.
  now rewrite HD.
Qed.

Lemma pontos_climatologia_periodo (soma_grupo : list float -> float) (df : list linha)
    (data_ini data_fim : Z) :
  365 <= dias_do_periodo data_ini data_fim ->
  preparar_df_plot soma_grupo df data_ini data_fim
  = (map (ponto_climatologia soma_grupo df) (meses_presentes df),
     "ITU Médio Mensal (média de todos os anos)").
Proof.
  intros HD. rewrite preparar_df_plot_granularidade.
  apply (granularidade_de_cases (dias_do_periodo data_ini data_fim)) in HD.
  now rewrite HD.
Qed.

(** C3, as the code has it.  For 15 < D <= 90 the points are the
    consecutive five-day windows that start at the earliest date of the
    series (not at the start of the period, unless the series has a row
    on that day and none before): the window starts are five days apart,
    every row lies in exactly one window, and the value of a point is the
    mean of the index values of the rows in its window. *)
Theorem janelas_de_cinco_dias :
  forall (soma_grupo : list float -> float) (df : list linha) (data_ini data_fim : Z),
    15 < dias_do_periodo data_ini data_fim <= 90 ->
    let pts := fst (preparar_df_plot soma_grupo df data_ini data_fim) in
    snd (preparar_df_plot soma_grupo df data_ini data_fim)
    = "ITU (Média a cada 5 dias)" /\
    (forall p : ponto, In p pts ->
       plot_ITU p = pd_mean soma_grupo (map ITU (janela_5D df (plot_Data p))) /\
       plot_Label p = strftime_dm (plot_Data p)) /\
    (forall (w : Z) (r : linha),
       In r (janela_5D df w) <-> In r df /\ w <= Data r < w + 5) /\
    (forall xs : list float,
       xs <> [] -> Forall (fun x => PrimFloat.is_nan x = false) xs ->
       pd_mean soma_grupo xs = (soma_grupo xs / float_of_nat (List.length xs))%float) /\
    (forall (d : Z) (ds : list Z),
       map Data df = d :: ds ->
       let d0 := menor_data d ds in
       let d1 := maior_data d ds in
       In d0 (map Data df) /\
       (forall r : linha, In r df -> d0 <= Data r <= d1) /\
       map plot_Data pts
       = map (fun k => d0 + 5 * k) (intervalo 0 (S (Z.to_nat ((d1 - d0) / 5)))) /\
       (forall r : linha, In r df ->
          exists k : Z,
            0 <= k <= (d1 - d0) / 5 /\
            In r (janela_5D df (d0 + 5 * k)) /\
            forall k' : Z, In r (janela_5D df (d0 + 5 * k')) -> k' = k)) /\
    ((exists r : linha, In r df /\ Data r = data_ini) ->
     (forall r : linha, In r df -> data_ini <= Data r) ->
     hd_error (map plot_Data pts) = Some data_ini).
Proof.
  intros sg df ini fim HD pts. subst pts. rewrite (pontos_5D_periodo sg df ini fim HD).
  cbn [fst snd]. split; [reflexivity|].
  split.
  { intros p Hp. apply in_map_iff in Hp. destruct Hp as [w [<- _]]. now split. }
  split; [intros w r; apply in_janela_5D|].
  split; [apply pd_mean_sem_nan|].
  split.
  - intros d ds H. split; [|split; [|split]].
    + rewrite H. apply menor_data_spec.
    + intros r Hr. now apply (datas_limites df d ds r H).
    + rewrite map_map. cbn [ponto_5D plot_Data]. rewrite map_id.
      now apply inicios_5D_cons.
    + intros r Hr. now apply (janela_5D_unica df d ds r H).
  - intros [r [Hr Hini]] Hmin.
    destruct (map Data df) as [|d ds] eqn:H.
    { destruct df; [destruct Hr|discriminate]. }
    assert (Hd0 : menor_data d ds = ini).
    { pose proof (menor_data_spec d ds) as [Hin Hle].
      rewrite <- H in Hin. apply in_map_iff in Hin. destruct Hin as [r' [Hr' Hin]].
      specialize (Hmin r' Hin).
      assert (In ini (d :: ds)) as Hi by (rewrite <- H, <- Hini; now apply in_map).
      specialize (Hle ini Hi). lia. }
    rewrite map_map. cbn [ponto_5D plot_Data]. rewrite map_id.
    rewrite (inicios_5D_cons df d ds H), Hd0.
    unfold intervalo. cbn [seq map hd_error]. f_equal. lia.
Qed.

(** C3 on a period of 20 days whose series has a row on the first day:
    the first window starts on that day. *)
Lemma janelas_de_cinco_dias_witness :
  15 < dias_do_periodo 18262 18281 <= 90 /\
  hd_error
    (map plot_Data
       (fst (preparar_df_plot soma_sequencial
               [mk_linha 18262 30 60 79.72 "Perigo"; mk_linha 18270 25 50 71.65 "Alerta"]
               18262 18281)))
  = Some 18262.
Proof.
  assert (HD : 15 < dias_do_periodo 18262 18281 <= 90) by (unfold dias_do_periodo; lia).
  split; [exact HD|].
  apply (janelas_de_cinco_dias soma_sequencial
           [mk_linha 18262 30 60 79.72 "Perigo"; mk_linha 18270 25 50 71.65 "Alerta"]
           18262 18281 HD).
  - eexists. split; [left; reflexivity|reflexivity].
  - intros r [<-|[<-|[]]]; simpl; lia.
Defined.

(** C3, the input on which the claim as written fails: the period starts
    on day 18262 (2020-01-01) and lasts 20 days, the first row is dated
    18264, and the first window starts on 18264, not on 18262. *)
Lemma janelas_nao_ancoradas_no_periodo :
  15 < dias_do_periodo 18262 18281 <= 90 /\
  map plot_Data
    (fst (preparar_df_plot soma_sequencial
            [mk_linha 18264 30 60 79.72 "Perigo"; mk_linha 18270 25 50 71.65 "Alerta"]
            18262 18281))
  = [18264; 18269] /\
  18264 <> 18262.
Proof.
  split; [unfold dias_do_periodo; lia|]. split; [reflexivity|discriminate].
Qed.

(** ** Empty bins *)

Lemma meses_do_periodo_cons (df : list linha) (d : Z) (ds : list Z) :
  map Data df = d :: ds ->
  meses_do_periodo df
  = intervalo (mes_idx (menor_data d ds))
      (S (Z.to_nat (mes_idx (maior_data d ds) - mes_idx (menor_data d ds)))).
Proof. intros H. unfold meses_do_periodo. now rewrite H. Qed.

(** C10.  In the five-day branch and in the monthly branch every bin from
    the one of the earliest row to the one of the latest row is a point of
    the output; a bin that holds no row is there too, and its value is
    [nan], the mean of nothing. *)
Theorem baldes_vazios_sao_emitidos :
  forall (soma_grupo : list float -> float) (df : list linha)
         (data_ini data_fim d : Z) (ds : list Z),
    map Data df = d :: ds ->
    let D := dias_do_periodo data_ini data_fim in
    let pts := fst (preparar_df_plot soma_grupo df data_ini data_fim) in
    let d0 := menor_data d ds in
    let d1 := maior_data d ds in
    (15 < D <= 90 ->
     List.length pts = S (Z.to_nat ((d1 - d0) / 5)) /\
     forall k : Z,
       0 <= k <= (d1 - d0) / 5 ->
       janela_5D df (d0 + 5 * k) = [] ->
       nth_error pts (Z.to_nat k)
       = Some (mk_ponto (d0 + 5 * k) nan (strftime_dm (d0 + 5 * k)))) /\
    (90 < D < 365 ->
     List.length pts = S (Z.to_nat (mes_idx d1 - mes_idx d0)) /\
     forall k : Z,
       mes_idx d0 <= k <= mes_idx d1 ->
       linhas_mes_ano df k = [] ->
       nth_error pts (Z.to_nat (k - mes_idx d0))
       = Some (mk_ponto (fim_do_mes k) nan (strftime_bY (fim_do_mes k)))).
Proof.
  intros sg df ini fim d ds H D pts d0 d1. subst D pts d0 d1. split; intros HD.
  - rewrite (pontos_5D_periodo sg df ini fim HD). cbn [fst]. split.
    + now rewrite length_map, (inicios_5D_cons df d ds H), length_map, length_intervalo.
    + intros k Hk Hvazio.
      rewrite nth_error_map, (nth_error_inicios_5D df d ds k H Hk).
      cbn [option_map]. unfold ponto_5D. now rewrite Hvazio.
  - rewrite (pontos_mensais_periodo sg df ini fim HD). cbn [fst]. split.
    + now rewrite length_map, (meses_do_periodo_cons df d ds H), length_intervalo.
    + intros k Hk Hvazio.
      rewrite nth_error_map, (meses_do_periodo_cons df d ds H).
      rewrite nth_error_intervalo by lia.
      replace (mes_idx (menor_data d ds)
               + Z.of_nat (Z.to_nat (k - mes_idx (menor_data d ds)))) with k by lia.
      cbn [option_map]. unfold ponto_mensal. now rewrite Hvazio.
Qed.

(** C10 on two series with a gap: the window of 2020-01-06 and the month
    of February 2020 hold no row and are points of value [nan]. *)
Lemma baldes_vazios_sao_emitidos_witness :
  nth_error
    (fst (preparar_df_plot soma_sequencial
            [mk_linha 18262 30 60 79.72 "Perigo"; mk_linha 18274 25 50 71.65 "Alerta"]
            18262 18281)) 1
  = Some (mk_ponto 18267 nan "06/01") /\
  nth_error
    (fst (preparar_df_plot soma_sequencial
            [mk_linha 18262 30 60 79.72 "Perigo"; mk_linha 18340 25 50 71.65 "Alerta"]
            18262 18361)) 1
  = Some (mk_ponto 18321 nan "Feb/2020").
Proof.
  split.
  - destruct (baldes_vazios_sao_emitidos soma_sequencial
                [mk_linha 18262 30 60 79.72 "Perigo"; mk_linha 18274 25 50 71.65 "Alerta"]
                18262 18281 18262 [18274] eq_refl) as [H5 _].
    destruct (H5 ltac:(unfold dias_do_periodo; lia)) as [_ Hk].
    assert (Hr : 0 <= 1 <= (maior_data 18262 [18274] - menor_data 18262 [18274]) / 5)
      by (vm_compute; split; discriminate).
    exact (Hk 1 Hr eq_refl).
  - destruct (baldes_vazios_sao_emitidos soma_sequencial
                [mk_linha 18262 30 60 79.72 "Perigo"; mk_linha 18340 25 50 71.65 "Alerta"]
                18262 18361 18262 [18340] eq_refl) as [_ HM].
    destruct (HM ltac:(unfold dias_do_periodo; lia)) as [_ Hk].
    assert (Hr : mes_idx (menor_data 18262 [18340]) <= 24241
                 <= mes_idx (maior_data 18262 [18340]))
      by (vm_compute; split; discriminate).
    exact (Hk 24241 Hr eq_refl).
Defined.

(** ** Month numbers and sorted keys *)

Lemma dt_month_mp (dia : Z) :
  dt_month dia = if mp_de dia <? 10 then mp_de dia + 3 else mp_de dia - 9.
Proof. reflexivity. Qed.

Lemma mp_de_limites (dia : Z) : 0 <= mp_de dia <= 11.
Proof.
  unfold mp_de, mp_do_doe, yoe_de, inicio_ano. Z.div_mod_to_equations. lia.
Qed.

Lemma dt_month_limites (dia : Z) : 1 <= dt_month dia <= 12.
Proof.
  rewrite dt_month_mp. pose proof (mp_de_limites dia).
  destruct (Z.ltb_spec (mp_de dia) 10); lia.
Qed.

Lemma in_insere_chave (k x : Z) (ks : list Z) :
  In x (insere_chave k ks) <-> x = k \/ In x ks.
Proof.
  induction ks as [|h t IH]; simpl.
  - intuition.
  - destruct (Z.ltb_spec k h); [simpl; intuition|].
    destruct (Z.eqb_spec k h); [subst; simpl; intuition|].
    simpl. rewrite IH. intuition.
Qed.

Lemma insere_chave_sorted (k : Z) (ks : list Z) :
  StronglySorted Z.lt ks -> StronglySorted Z.lt (insere_chave k ks).
Proof.
  induction 1 as [|h t Ht IH Hh]; simpl.
  - constructor; constructor.
  - destruct (Z.ltb_spec k h).
    + constructor; [now constructor|].
      constructor; [assumption|].
      eapply Forall_impl; [|exact Hh]. intros x Hx. cbv beta in *. lia.
    + destruct (Z.eqb_spec k h); [now constructor|].
      constructor; [exact IH|].
      apply Forall_forall. intros x Hx. apply in_insere_chave in Hx.
      destruct Hx as [->|Hx]; [lia|].
      rewrite Forall_forall in Hh. now apply Hh.
Qed.

Lemma chaves_sorted (ks : list Z) : StronglySorted Z.lt (chaves ks).
Proof.
  unfold chaves. induction ks as [|k ks IH]; simpl; [constructor|].
  now apply insere_chave_sorted.
Qed.

Lemma in_chaves (ks : list Z) (x : Z) : In x (chaves ks) <-> In x ks.
Proof.
  unfold chaves. induction ks as [|k ks IH]; simpl; [tauto|].
  rewrite in_insere_chave, IH. intuition.
Qed.

(** A strictly ascending list of integers of [[a, b]] has at most
    [b - a + 1] elements, and has that many only if it holds them all. *)
Lemma sorted_limitada (l : list Z) :
  StronglySorted Z.lt l ->
  forall a b : Z,
    (forall x, In x l -> a <= x <= b) -> a <= b + 1 ->
    Z.of_nat (List.length l) <= b - a + 1 /\
    (Z.of_nat (List.length l) = b - a + 1 -> forall m, a <= m <= b -> In m l).
Proof.
  induction 1 as [|h t Ht IH Hh]; intros a b Hin Hab.
  - simpl. split; [lia|]. intros Heq m Hm. lia.
  - pose proof (Hin h (or_introl eq_refl)) as Hhab.
    rewrite Forall_forall in Hh.
    destruct (IH (h + 1) b) as [Hlen Hall].
    + intros x Hx. specialize (Hh x Hx). specialize (Hin x (or_intror Hx)). lia.
    + lia.
    + cbn [List.length]. split; [lia|].
      intros Heq m Hm.
      destruct (Z.eq_dec m h) as [->|Hne]; [now left|right].
      apply Hall; lia.
Qed.

Lemma NoDup_intervalo (a : Z) (n : nat) : NoDup (intervalo a n).
Proof.
  unfold intervalo. generalize 0%nat as i.
  induction n as [|n IH]; intros i; simpl; constructor.
  - rewrite in_map_iff. intros [j [Hj Hin]]. apply in_seq in Hin. lia.
  - apply IH.
Qed.

Lemma in_meses_presentes (df : list linha) (m : Z) :
  In m (meses_presentes df) <-> exists r, In r df /\ dt_month (Data r) = m.
Proof.
  unfold meses_presentes. rewrite in_chaves, in_map_iff. split.
  - intros [r [<- Hr]]. now exists r.
  - intros [r [Hr <-]]. now exists r.
Qed.

Lemma meses_presentes_limites (df : list linha) (m : Z) :
  In m (meses_presentes df) -> 1 <= m <= 12.
Proof.
  intros H. apply in_meses_presentes in H. destruct H as [r [_ <-]].
  apply dt_month_limites.
Qed.

Lemma meses_presentes_doze (df : list linha) :
  (List.length (meses_presentes df) <= 12)%nat /\
  (List.length (meses_presentes df) = 12%nat <->
   forall m, 1 <= m <= 12 -> In m (meses_presentes df)).
Proof.
  destruct (sorted_limitada (meses_presentes df) (chaves_sorted _) 1 12
              (meses_presentes_limites df) ltac:(lia)) as [Hlen Hall].
  split; [lia|]. split.
  - intros Heq. apply Hall. lia.
  - intros Hin.
    assert (Hincl : incl (intervalo 1 12) (meses_presentes df)).
    { intros m Hm. apply in_intervalo in Hm. apply Hin. lia. }
    pose proof (NoDup_incl_length (NoDup_intervalo 1 12) Hincl) as Hge.
    rewrite length_intervalo in Hge. lia.
Qed.

(** ** Every month comes within a year *)

Lemma doy_limites (doe : Z) :
  0 <= doe < 146097 ->
  0 <= yoe_de doe <= 399 /\ 0 <= doe - inicio_ano (yoe_de doe) <= 365.
Proof. unfold yoe_de, inicio_ano. intros. Z.div_mod_to_equations. lia. Qed.

Lemma yoe_de_inicio (y s : Z) :
  0 <= y <= 399 -> 0 <= s <= 364 -> yoe_de (inicio_ano y + s) = y.
Proof. unfold yoe_de, inicio_ano. intros. Z.div_mod_to_equations. lia. Qed.

(** The first day of a month is a day of that month. *)
Lemma mp_do_doe_inicio (y t : Z) :
  0 <= y <= 399 -> 0 <= t <= 11 ->
  mp_do_doe (inicio_ano y + inicio_mes t) = t.
Proof.
  intros Hy Ht. unfold mp_do_doe.
  assert (Hs : 0 <= inicio_mes t <= 364)
    by (unfold inicio_mes; Z.div_mod_to_equations; lia).
  rewrite (yoe_de_inicio y _ Hy Hs).
  replace (inicio_ano y + inicio_mes t - inicio_ano y) with (inicio_mes t) by lia.
  unfold inicio_mes. Z.div_mod_to_equations. lia.
Qed.

Lemma mp_de_era (era doe : Z) :
  0 <= doe < 146097 ->
  mp_de (era * 146097 + doe - 719468) = mp_do_doe doe.
Proof.
  intros H. unfold mp_de. f_equal.
  replace (era * 146097 + doe - 719468 + 719468) with (doe + era * 146097) by lia.
  rewrite Z.mod_add by lia. now apply Z.mod_small.
Qed.

(** From any day, the month [t] (counted from March) is reached within
    the 365 days that start on that day: on the day itself, later in the
    same year, or at the start of that month in the following year. *)
Lemma mes_a_frente (dia t : Z) :
  0 <= t <= 11 ->
  exists dia' : Z, dia <= dia' <= dia + 364 /\ mp_de dia' = t.
Proof.
  intros Ht.
  destruct (Z.eq_dec (mp_de dia) t) as [Heq|Hne]; [exists dia; split; [lia|exact Heq]|].
  set (z := dia + 719468).
  pose proof (Z.div_mod z 146097 ltac:(lia)) as Hz.
  pose proof (Z.mod_pos_bound z 146097 ltac:(lia)) as Hdoe.
  set (era := z / 146097) in *. set (doe := z mod 146097) in *.
  pose proof (doy_limites doe Hdoe) as [Hy Hdoy].
  assert (Hmp : mp_de dia = mp_do_doe doe) by reflexivity.
  rewrite Hmp in Hne. unfold mp_do_doe in Hne.
  set (y := yoe_de doe) in *. set (doy := doe - inicio_ano y) in *.
  assert (Hs : 0 <= inicio_mes t <= 337)
    by (unfold inicio_mes; Z.div_mod_to_equations; lia).
  assert (Hia : 0 <= inicio_ano y <= 145731).
  { clearbody y. clear - Hy. unfold inicio_ano. Z.div_mod_to_equations. lia. }
  destruct (Z.lt_ge_cases doy (inicio_mes t)) as [Hlt|Hge].
  - exists (era * 146097 + (inicio_ano y + inicio_mes t) - 719468). split.
    + subst doy z. lia.
    + rewrite mp_de_era; [now apply mp_do_doe_inicio|].
      subst doy. lia.
  - assert (Hfar : inicio_mes t + 28 <= doy /\ t <= 10).
    { unfold inicio_mes in *. Z.div_mod_to_equations. lia. }
    destruct (Z.eq_dec y 399) as [Hy399|Hy399].
    + exists ((era + 1) * 146097 + (inicio_ano 0 + inicio_mes t) - 719468). split.
      * assert (inicio_ano y = 145731) by (rewrite Hy399; reflexivity).
        change (inicio_ano 0) with 0. subst doy z. lia.
      * rewrite mp_de_era; [apply mp_do_doe_inicio; lia|].
        change (inicio_ano 0) with 0. lia.
    + exists (era * 146097 + (inicio_ano (y + 1) + inicio_mes t) - 719468).
      assert (Hlen : 365 <= inicio_ano (y + 1) - inicio_ano y <= 366
                     /\ inicio_ano (y + 1) <= 145731).
      { unfold inicio_ano. Z.div_mod_to_equations. lia. }
      split.
      * subst doy z. lia.
      * rewrite mp_de_era; [apply mp_do_doe_inicio; lia|]. lia.
Qed.

(** Any 365 consecutive days hold a day of every month number. *)
Lemma mes_no_ano (dia m : Z) :
  1 <= m <= 12 ->
  exists dia' : Z, dia <= dia' <= dia + 364 /\ dt_month dia' = m.
Proof.
  intros Hm. destruct (Z.lt_ge_cases m 3) as [H3|H3].
  - destruct (mes_a_frente dia (m + 9) ltac:(lia)) as [dia' [Hd Hmp]].
    exists dia'. split; [exact Hd|]. rewrite dt_month_mp, Hmp.
    destruct (Z.ltb_spec (m + 9) 10); lia.
  - destruct (mes_a_frente dia (m - 3) ltac:(lia)) as [dia' [Hd Hmp]].
    exists dia'. split; [exact Hd|]. rewrite dt_month_mp, Hmp.
    destruct (Z.ltb_spec (m - 3) 10); lia.
Qed.

(** ** Climatology *)

(** C2, as the code has it.  For D >= 365 the rows are grouped by month
    number, all years together: the output has one point for each month
    number that occurs in the series and none for the others, in
    calendar order, and the value of a point is the mean of the index
    values of all the rows of that month number.  There are at most 12
    points, and exactly 12 exactly when every month number occurs, which
    is so whenever the series has a row for every day of the period. *)
Theorem climatologia_mensal :
  forall (soma_grupo : list float -> float) (df : list linha) (data_ini data_fim : Z),
    365 <= dias_do_periodo data_ini data_fim ->
    let pts := fst (preparar_df_plot soma_grupo df data_ini data_fim) in
    snd (preparar_df_plot soma_grupo df data_ini data_fim)
    = "ITU Médio Mensal (média de todos os anos)" /\
    StronglySorted Z.lt (map plot_Data pts) /\
    (forall m : Z,
       In m (map plot_Data pts) <-> exists r, In r df /\ dt_month (Data r) = m) /\
    (forall p : ponto, In p pts ->
       1 <= plot_Data p <= 12 /\
       plot_ITU p = pd_mean soma_grupo (map ITU (grupo_Mes df (plot_Data p))) /\
       plot_Label p = map_dict mapa_mes (plot_Data p)) /\
    (forall (m : Z) (r : linha),
       In r (grupo_Mes df m) <-> In r df /\ dt_month (Data r) = m) /\
    (List.length pts <= 12)%nat /\
    (List.length pts = 12%nat <->
     forall m : Z, 1 <= m <= 12 -> exists r, In r df /\ dt_month (Data r) = m) /\
    ((forall dia : Z, data_ini <= dia <= data_fim -> In dia (map Data df)) ->
     List.length pts = 12%nat).
Proof.
  intros sg df ini fim HD pts. subst pts.
  rewrite (pontos_climatologia_periodo sg df ini fim HD). cbn [fst snd].
  assert (Hkeys : map plot_Data (map (ponto_climatologia sg df) (meses_presentes df))
                  = meses_presentes df).
  { rewrite map_map. cbn [ponto_climatologia plot_Data]. apply map_id. }
  rewrite Hkeys, length_map.
  pose proof (meses_presentes_doze df) as [Hle Hdoze].
  assert (Hiff : List.length (meses_presentes df) = 12%nat <->
                 forall m : Z, 1 <= m <= 12 ->
                   exists r, In r df /\ dt_month (Data r) = m).
  { rewrite Hdoze. split; intros H m Hm; apply in_meses_presentes; now apply H. }
  split; [reflexivity|].
  split; [apply chaves_sorted|].
  split; [apply in_meses_presentes|].
  split.
  { intros p Hp. apply in_map_iff in Hp. destruct Hp as [m [<- Hm]].
    cbn [ponto_climatologia plot_Data plot_ITU plot_Label].
    split; [now apply (meses_presentes_limites df)|now split]. }
  split; [intros m r; apply in_grupo_Mes|].
  split; [exact Hle|].
  split; [exact Hiff|].
  intros Hdias. apply Hiff. intros m Hm.
  destruct (mes_no_ano ini m Hm) as [dia [Hdia Hmes]].
  assert (Hin : In dia (map Data df)).
  { apply Hdias. unfold dias_do_periodo in HD. lia. }
  apply in_map_iff in Hin. destruct Hin as [r [Hr Hin]].
  exists r. split; [exact Hin|]. now rewrite Hr.
Qed.

(** C2 on a period of 400 days whose rows are dated in January and May:
    the points are the months 1 and 5, in that order. *)
Lemma climatologia_mensal_witness :
  365 <= dias_do_periodo 18262 18661 /\
  map plot_Data
    (fst (preparar_df_plot soma_sequencial
            [mk_linha 18262 30 60 79.72 "Perigo"; mk_linha 18400 25 50 71.65 "Alerta";
             mk_linha 18628 35 80 90.86 "Emergência"]
            18262 18661))
  = [1; 5] /\
  StronglySorted Z.lt [1; 5].
Proof.
  assert (HD : 365 <= dias_do_periodo 18262 18661) by (unfold dias_do_periodo; lia).
  split; [exact HD|]. split; [reflexivity|].
  exact (proj1 (proj2 (climatologia_mensal soma_sequencial
           [mk_linha 18262 30 60 79.72 "Perigo"; mk_linha 18400 25 50 71.65 "Alerta";
            mk_linha 18628 35 80 90.86 "Emergência"]
           18262 18661 HD))).
Defined.

(** C2, the input on which the claim as written fails: a period of 400
    days and a series whose rows are all dated in January and May; the
    output has 2 points, not 12. *)
Lemma climatologia_sem_doze_pontos :
  dias_do_periodo 18262 18661 = 400 /\
  List.length
    (fst (preparar_df_plot soma_sequencial
            [mk_linha 18262 30 60 79.72 "Perigo"; mk_linha 18400 25 50 71.65 "Alerta";
             mk_linha 18628 35 80 90.86 "Emergência"]
            18262 18661))
  = 2%nat /\
  2%nat <> 12%nat.
Proof. split; [reflexivity|]. split; [reflexivity|discriminate]. Qed.

(* ================================================================== *)
(** * Part IV: further properties of the code                          *)
(* ================================================================== *)

(** ** The classifier and its lookups *)

(** X1.  The classifier is monotone: a larger index value never gets a
    lower band. *)
Theorem classificar_itu_monotona :
  forall x y : float,
    (x <=? y)%float = true ->
    (nivel (classificar_itu x) <= nivel (classificar_itu y))%nat.
Proof.
  intros x y Hxy. unfold classificar_itu.
  destruct (y <=? 70)%float eqn:Y1.
  { rewrite (leb_trans x y 70 Hxy Y1). vm_compute; lia. }
  destruct (y <=? 78)%float eqn:Y2.
  { rewrite (leb_trans x y 78 Hxy Y2). destruct (x <=? 70)%float; vm_compute; lia. }
  destruct (y <=? 82)%float eqn:Y3.
  { rewrite (leb_trans x y 82 Hxy Y3).
    destruct (x <=? 70)%float; [vm_compute; lia|].
    destruct (x <=? 78)%float; vm_compute; lia. }
  destruct (x <=? 70)%float; [vm_compute; lia|].
  destruct (x <=? 78)%float; [vm_compute; lia|].
  destruct (x <=? 82)%float; vm_compute; lia.
Qed.

(** X1 at 71.65 and 79.72: Alerta is below Perigo. *)
Lemma classificar_itu_monotona_witness :
  (71.65 <=? 79.72)%float = true /\
  (nivel (classificar_itu 71.65) <= nivel (classificar_itu 79.72))%nat.
Proof.
  split; [reflexivity|].
  apply (classificar_itu_monotona 71.65 79.72). reflexivity.
Defined.

(** X2.  The colour tells the band: two index values have the same
    colour exactly when they have the same class. *)
Theorem cor_identifica_classe :
  forall x y : float,
    cor_por_itu x = cor_por_itu y <-> classificar_itu x = classificar_itu y.
Proof.
  intros x y. unfold cor_por_itu, classificar_itu.
  destruct (x <=? 70)%float, (x <=? 78)%float, (x <=? 82)%float,
           (y <=? 70)%float, (y <=? 78)%float, (y <=? 82)%float;
    split; intros H; try reflexivity; discriminate H.
Qed.

(** X3.  [recomendacao_por_classe] gives the Emergência advice to every
    class name other than Normal, Alerta and Perigo, known or not, and on
    the classes the classifier produces the advice tells the class. *)
Theorem recomendacao_por_classe_padrao :
  (forall classe : string,
     recomendacao_por_classe classe = recomendacao_por_classe "Emergência" <->
     classe <> "Normal" /\ classe <> "Alerta" /\ classe <> "Perigo") /\
  (forall x y : float,
     recomendacao_por_classe (classificar_itu x)
     = recomendacao_por_classe (classificar_itu y) <->
     classificar_itu x = classificar_itu y).
Proof.
  split.
  - intros classe. unfold recomendacao_por_classe.
    destruct (String.eqb_spec classe "Normal") as [->|H1].
    { split; [discriminate|intros [H _]; congruence]. }
    destruct (String.eqb_spec classe "Alerta") as [->|H2].
    { split; [discriminate|intros [_ [H _]]; congruence]. }
    destruct (String.eqb_spec classe "Perigo") as [->|H3].
    { split; [discriminate|intros [_ [_ H]]; congruence]. }
    split; [now intros _|reflexivity].
  - intros x y. unfold classificar_itu.
    destruct (x <=? 70)%float, (x <=? 78)%float, (x <=? 82)%float,
             (y <=? 70)%float, (y <=? 78)%float, (y <=? 82)%float;
      split; intros H; try reflexivity; discriminate H.
Qed.

(** ** Missing measurements *)

Lemma Prim2SF_nan : Prim2SF nan = S754_nan.
Proof. reflexivity. Qed.

Lemma add_nan_l (x : float) : (nan + x)%float = nan.
Proof.
  apply Prim2SF_inj. rewrite add_spec, Prim2SF_nan. now destruct (Prim2SF x).
Qed.

Lemma add_nan_r (x : float) : (x + nan)%float = nan.
Proof.
  apply Prim2SF_inj. rewrite add_spec, Prim2SF_nan.
  destruct (Prim2SF x) as [[|]|[|]| |]; reflexivity.
Qed.

Lemma sub_nan_l (x : float) : (nan - x)%float = nan.
Proof.
  apply Prim2SF_inj. rewrite sub_spec, Prim2SF_nan. now destruct (Prim2SF x).
Qed.

Lemma mul_nan_l (x : float) : (nan * x)%float = nan.
Proof.
  apply Prim2SF_inj. rewrite mul_spec, Prim2SF_nan. now destruct (Prim2SF x).
Qed.

Lemma mul_nan_r (x : float) : (x * nan)%float = nan.
Proof.
  apply Prim2SF_inj. rewrite mul_spec, Prim2SF_nan.
  destruct (Prim2SF x) as [[|]|[|]| |]; reflexivity.
Qed.

Lemma div_nan_l (x : float) : (nan / x)%float = nan.
Proof.
  apply Prim2SF_inj. rewrite div_spec, Prim2SF_nan. now destruct (Prim2SF x).
Qed.

(** X4.  [calcular_itu] validates nothing: when the temperature or the
    humidity is not a number, so is the index, and such an index is
    classified Emergência and coloured red. *)
Theorem calcular_itu_nan :
  forall v : float,
    calcular_itu nan v = nan /\
    calcular_itu v nan = nan /\
    classificar_itu (calcular_itu nan v) = "Emergência" /\
    classificar_itu (calcular_itu v nan) = "Emergência" /\
    cor_por_itu (calcular_itu nan v) = "#C62828" /\
    cor_por_itu (calcular_itu v nan) = "#C62828".
Proof.
  intros v.
  assert (H1 : calcular_itu nan v = nan).
  { unfold calcular_itu.
    now rewrite mul_nan_r, sub_nan_l, mul_nan_r, div_nan_l, !add_nan_l. }
  assert (H2 : calcular_itu v nan = nan).
  { unfold calcular_itu.
    now rewrite mul_nan_l, div_nan_l, add_nan_r, add_nan_l. }
  rewrite H1, H2. repeat split; reflexivity.
Qed.

(** ** The analysed frame and what is drawn from it *)

Lemma contagem_classes (vs : list float) :
  (count_occ string_dec (map classificar_itu vs) "Normal"
   + count_occ string_dec (map classificar_itu vs) "Alerta"
   + count_occ string_dec (map classificar_itu vs) "Perigo"
   + count_occ string_dec (map classificar_itu vs) "Emergência"
   = List.length vs)%nat.
Proof.
  induction vs as [|v vs IH]; [reflexivity|].
  cbn [map List.length]. unfold classificar_itu at 1 3 5 7.
  destruct (v <=? 70)%float; [|destruct (v <=? 78)%float; [|destruct (v <=? 82)%float]];
    repeat match goal with
      | |- context [count_occ string_dec (?a :: _) ?b] =>
          first [ rewrite (count_occ_cons_eq string_dec _ (eq_refl : a = b))
                | rewrite (count_occ_cons_neq string_dec _ (x := a) (y := b))
                    by discriminate ]
      end; lia.
Qed.

(** X5.  Every row of the analysed frame has exactly one of the four
    classes: the numbers of Normal, Alerta, Perigo and Emergência rows add
    up to the number of rows, which is the number of records given. *)
Theorem classes_particionam_linhas :
  forall (soma_serie soma_grupo : list float -> float)
         (dados : list registro) (data_ini data_fim : Z),
    match analisar soma_serie soma_grupo dados data_ini data_fim with
    | Parado _ => dados = []
    | Analisado a =>
        List.length (a_df a) = List.length dados /\
        (count_occ string_dec (map Classe (a_df a)) "Normal"
         + count_occ string_dec (map Classe (a_df a)) "Alerta"
         + count_occ string_dec (map Classe (a_df a)) "Perigo"
         + count_occ string_dec (map Classe (a_df a)) "Emergência"
         = List.length (a_df a))%nat
    end.
Proof.
  intros ss sg dados ini fim. unfold analisar.
  destruct dados as [|r0 rs]; [reflexivity|].
  destruct (preparar_df_plot _ _ _ _) as [df_plot titulo]. cbn [a_df].
  set (dados := r0 :: rs).
  split; [apply length_map|].
  rewrite map_map. cbn [Classe].
  rewrite <- (map_map (fun r => calcular_itu (r_Ta r) (r_UR r)) classificar_itu).
  rewrite contagem_classes. now rewrite !length_map.
Qed.


(** ** The bars of the chart *)

Lemma map_combine_seq_idx {A B C D : Type} (g : nat -> A -> B -> C) (h : C -> D)
    (k : nat -> D) (xs : list A) (ys : list B) (i : nat) :
  (forall n a b, h (g n a b) = k n) ->
  List.length xs = List.length ys ->
  map h (map (fun '(n, (a, b)) => g n a b)
           (combine (seq i (List.length xs)) (combine xs ys)))
  = map k (seq i (List.length xs)).
Proof.
  intros Hh. revert ys i.
  induction xs as [|x xs IH]; intros [|y ys] i Hlen; try discriminate; [reflexivity|].
  simpl. rewrite Hh. f_equal. apply IH. now injection Hlen.
Qed.

Lemma map_combine_seq_fst {A B C D : Type} (g : nat -> A -> B -> C) (h : C -> D)
    (k : A -> D) (xs : list A) (ys : list B) (i : nat) :
  (forall n a b, h (g n a b) = k a) ->
  List.length xs = List.length ys ->
  map h (map (fun '(n, (a, b)) => g n a b)
           (combine (seq i (List.length xs)) (combine xs ys)))
  = map k xs.
Proof.
  intros Hh. revert ys i.
  induction xs as [|x xs IH]; intros [|y ys] i Hlen; try discriminate; [reflexivity|].
  simpl. rewrite Hh. f_equal. apply IH. now injection Hlen.
Qed.

Lemma length_cores (df_plot : list ponto) :
  List.length df_plot = List.length (cores df_plot).
Proof. unfold cores. now rewrite length_map. Qed.

Lemma barras_ticks (df_plot : list ponto) (titulo : string) :
  map b_tick_visivel (fig_barras (plot_barras_itu df_plot titulo))
  = map (fun i => tick_visivel (Z.of_nat (List.length df_plot)) (Z.of_nat i))
      (seq 0 (List.length df_plot)).
Proof.
  unfold plot_barras_itu. cbn [fig_barras].
  apply map_combine_seq_idx; [reflexivity|apply length_cores].
Qed.

Lemma barras_labels (df_plot : list ponto) (titulo : string) :
  map b_label (fig_barras (plot_barras_itu df_plot titulo)) = map plot_Label df_plot.
Proof.
  unfold plot_barras_itu. cbn [fig_barras].
  apply map_combine_seq_fst; [reflexivity|apply length_cores].
Qed.

Lemma barras_alturas (df_plot : list ponto) (titulo : string) :
  map b_altura (fig_barras (plot_barras_itu df_plot titulo)) = map plot_ITU df_plot.
Proof.
  unfold plot_barras_itu. cbn [fig_barras].
  apply map_combine_seq_fst; [reflexivity|apply length_cores].
Qed.

Lemma barras_textos (df_plot : list ponto) (titulo : string) :
  map b_texto (fig_barras (plot_barras_itu df_plot titulo))
  = map (fun p => if (10 <=? plot_ITU p)%float
                  then Some (fmt_1f (plot_ITU p)) else None) df_plot.
Proof.
  unfold plot_barras_itu. cbn [fig_barras].
  apply map_combine_seq_fst; [reflexivity|apply length_cores].
Qed.

Lemma length_barras (df_plot : list ponto) (titulo : string) :
  List.length (fig_barras (plot_barras_itu df_plot titulo)) = List.length df_plot.
Proof.
  rewrite <- (length_map b_label), barras_labels. apply length_map.
Qed.

(** With more than [max_labels] bars, a visible position is a multiple of
    the step, and there are at most [max_labels] multiples. *)
Lemma tick_visivel_multiplo (n i : Z) :
  max_labels < n -> 0 <= i < n -> tick_visivel n i = true ->
  i = ((n + max_labels - 1) / max_labels) * (i / ((n + max_labels - 1) / max_labels)) /\
  0 <= i / ((n + max_labels - 1) / max_labels) < max_labels.
Proof.
  unfold tick_visivel, max_labels. intros Hn Hi.
  destruct (Z.ltb_spec 18 n) as [_|]; [|lia].
  rewrite Z.eqb_eq. intros Hmod.
  set (step := (n + 18 - 1) / 18) in *.
  assert (Hstep : 0 < step /\ n <= 18 * step).
  { subst step. Z.div_mod_to_equations. lia. }
  pose proof (Z.div_mod i step ltac:(lia)) as Hdm. rewrite Hmod in Hdm.
  split; [lia|]. split; [apply Z.div_pos; lia|].
  apply Z.div_lt_upper_bound; lia.
Qed.

Lemma ticks_visiveis_limite (n : nat) :
  (List.length (filter (fun i => tick_visivel (Z.of_nat n) (Z.of_nat i)) (seq 0 n))
   <= 18)%nat.
Proof.
  destruct (Z.le_gt_cases (Z.of_nat n) max_labels) as [Hle|Hgt].
  { pose proof (filter_length_le
                  (fun i => tick_visivel (Z.of_nat n) (Z.of_nat i)) (seq 0 n)) as H.
    rewrite length_seq in H. unfold max_labels in Hle. lia. }
  set (V := filter (fun i => tick_visivel (Z.of_nat n) (Z.of_nat i)) (seq 0 n)).
  set (step := (Z.of_nat n + max_labels - 1) / max_labels).
  set (q := fun i : nat => Z.to_nat (Z.of_nat i / step)).
  assert (HV : forall i, In i V ->
             Z.of_nat i = step * (Z.of_nat i / step)
             /\ 0 <= Z.of_nat i / step < max_labels).
  { intros i Hi. apply filter_In in Hi. destruct Hi as [Hi Hvis].
    apply in_seq in Hi. apply tick_visivel_multiplo; [lia|lia|exact Hvis]. }
  assert (Hnd : NoDup (map q V)).
  { apply NoDup_map_NoDup_ForallPairs; [|apply NoDup_filter, seq_NoDup].
    intros x y Hx Hy Hq. destruct (HV x Hx) as [Ex Bx]. destruct (HV y Hy) as [Ey By].
    unfold q in Hq. apply Nat2Z.inj. rewrite Ex, Ey. f_equal. lia. }
  assert (Hincl : incl (map q V) (seq 0 18)).
  { intros k Hk. apply in_map_iff in Hk. destruct Hk as [i [<- Hi]].
    destruct (HV i Hi) as [_ Bi]. apply in_seq. unfold q, max_labels in *. lia. }
  pose proof (NoDup_incl_length Hnd Hincl) as H.
  now rewrite length_map, length_seq in H.
Qed.

Lemma length_filter_map {A B : Type} (f : A -> B) (g : B -> bool) (l : list A) :
  List.length (filter g (map f l)) = List.length (filter (fun x => g (f x)) l).
Proof. now rewrite filter_map_swap, length_map. Qed.

(** X7.  The chart has one bar per point, with the point's label and
    value, in order.  Its first tick label is always visible, all are
    when there are at most 18 bars, and whatever the number of bars at
    most 18 tick labels stay visible. *)
Theorem ticks_do_grafico :
  forall (df_plot : list ponto) (titulo : string),
    let barras := fig_barras (plot_barras_itu df_plot titulo) in
    List.length barras = List.length df_plot /\
    map b_label barras = map plot_Label df_plot /\
    map b_altura barras = map plot_ITU df_plot /\
    (forall b : barra, hd_error barras = Some b -> b_tick_visivel b = true) /\
    ((List.length df_plot <= 18)%nat ->
     Forall (fun b => b_tick_visivel b = true) barras) /\
    (List.length (filter b_tick_visivel barras) <= 18)%nat.
Proof.
  intros df_plot titulo barras. subst barras.
  split; [apply length_barras|].
  split; [apply barras_labels|].
  split; [apply barras_alturas|].
  pose proof (barras_ticks df_plot titulo) as Ht.
  split; [|split].
  - intros b Hb.
    destruct (fig_barras (plot_barras_itu df_plot titulo)) as [|b0 bs];
      [discriminate|].
    injection Hb as ->.
    destruct df_plot as [|p ps]; [discriminate|].
    cbn [map seq List.length] in Ht. injection Ht as -> _.
    unfold tick_visivel. destruct (max_labels <? _); [|reflexivity].
    change (Z.of_nat 0) with 0. now rewrite Zmod_0_l.
  - intros Hn.
    assert (Hall : Forall (fun v => v = true)
                     (map b_tick_visivel (fig_barras (plot_barras_itu df_plot titulo)))).
    { rewrite Ht. apply Forall_forall. intros v Hv. apply in_map_iff in Hv.
      destruct Hv as [i [<- _]]. unfold tick_visivel, max_labels.
      destruct (Z.ltb_spec 18 (Z.of_nat (List.length df_plot))); [lia|reflexivity]. }
    now rewrite Forall_map in Hall.
  - rewrite <- (length_filter_map b_tick_visivel (fun v => v)), Ht, length_filter_map.
    apply ticks_visiveis_limite.
Qed.

Lemma in_combine_map {A B : Type} (f : A -> B) (xs : list A) (x : A) (y : B) :
  In (x, y) (combine xs (map f xs)) -> y = f x.
Proof.
  induction xs as [|a xs IH]; simpl; [tauto|].
  intros [E|H]; [now injection E as <- <-|now apply IH].
Qed.

(** X8.  A bar carries its value as text exactly when its height is at
    least 10, and then the text is the height with one decimal; a bar
    whose height is [nan], such as the bar of an empty bin, carries no
    text and has the colour of Emergência. *)
Theorem textos_das_barras :
  forall (df_plot : list ponto) (titulo : string),
    map b_texto (fig_barras (plot_barras_itu df_plot titulo))
    = map (fun p => if (10 <=? plot_ITU p)%float
                    then Some (fmt_1f (plot_ITU p)) else None) df_plot /\
    (forall b : barra,
       In b (fig_barras (plot_barras_itu df_plot titulo)) ->
       (b_texto b = None <-> (10 <=? b_altura b)%float = false) /\
       (b_altura b = nan -> b_texto b = None /\ b_cor b = "#C62828")).
Proof.
  intros df_plot titulo. split; [apply barras_textos|].
  intros b Hb. unfold plot_barras_itu in Hb. cbn [fig_barras] in Hb.
  apply in_map_iff in Hb. destruct Hb as [[i [p cor]] [<- Hin]].
  apply in_combine_r in Hin. cbn [b_texto b_altura b_cor].
  assert (Hcor : cor = cor_por_itu (plot_ITU p)).
  { unfold cores in Hin. now apply in_combine_map in Hin. }
  split.
  - destruct (10 <=? plot_ITU p)%float; split; congruence.
  - intros E. rewrite E in Hcor. rewrite E. subst cor. split; reflexivity.
Qed.

(** ** The order of the calendar months *)

Lemma yoe_de_mono (a b : Z) : 0 <= a <= b -> b < 146097 -> yoe_de a <= yoe_de b.
Proof. unfold yoe_de. intros. Z.div_mod_to_equations. lia. Qed.

Lemma inicio_ano_mono (y y' : Z) :
  0 <= y <= y' -> inicio_ano y + 365 * (y' - y) <= inicio_ano y'.
Proof. unfold inicio_ano. intros. Z.div_mod_to_equations. lia. Qed.

Lemma yoe_de_fim (doe : Z) : 145731 <= doe < 146097 -> yoe_de doe = 399.
Proof. unfold yoe_de. intros. Z.div_mod_to_equations. lia. Qed.

Lemma yoe_de_comeco (doe : Z) : 0 <= doe <= 364 -> yoe_de doe = 0.
Proof. unfold yoe_de. intros. Z.div_mod_to_equations. lia. Qed.

(** The month index through the steps of [civil_from_days]. *)
Lemma mes_idx_mp (dia : Z) :
  mes_idx dia
  = 12 * (yoe_de ((dia + 719468) mod 146097) + (dia + 719468) / 146097 * 400)
    + mp_de dia + 2.
Proof.
  pose proof (mp_de_limites dia) as Hmp.
  unfold mes_idx, dt_year, dt_month, civil_from_days.
  cbv beta iota zeta.
  change ((5 * ((dia + 719468) mod 146097
                - (365 * ((((dia + 719468) mod 146097)
                           - ((dia + 719468) mod 146097) / 1460
                           + ((dia + 719468) mod 146097) / 36524
                           - ((dia + 719468) mod 146097) / 146096) / 365)
                   + ((((dia + 719468) mod 146097)
                           - ((dia + 719468) mod 146097) / 1460
                           + ((dia + 719468) mod 146097) / 36524
                           - ((dia + 719468) mod 146097) / 146096) / 365) / 4
                   - ((((dia + 719468) mod 146097)
                           - ((dia + 719468) mod 146097) / 1460
                           + ((dia + 719468) mod 146097) / 36524
                           - ((dia + 719468) mod 146097) / 146096) / 365) / 100))
           + 2) / 153) with (mp_de dia).
  change ((((dia + 719468) mod 146097)
           - ((dia + 719468) mod 146097) / 1460
           + ((dia + 719468) mod 146097) / 36524
           - ((dia + 719468) mod 146097) / 146096) / 365)
    with (yoe_de ((dia + 719468) mod 146097)).
  destruct (Z.ltb_spec (mp_de dia) 10).
  - destruct (Z.leb_spec (mp_de dia + 3) 2); lia.
  - destruct (Z.leb_spec (mp_de dia - 9) 2); lia.
Qed.

Lemma mp_do_doe_mono (y doe doe' : Z) :
  yoe_de doe = y -> yoe_de doe' = y -> doe <= doe' ->
  mp_do_doe doe <= mp_do_doe doe'.
Proof.
  intros Hy Hy' Hle. unfold mp_do_doe. rewrite Hy, Hy'.
  apply Z.div_le_mono; lia.
Qed.

(** Later days have later (or the same) calendar months. *)
Lemma mes_idx_mono (d d' : Z) : d <= d' -> mes_idx d <= mes_idx d'.
Proof.
  intros Hle. rewrite !mes_idx_mp.
  pose proof (mp_de_limites d) as Hmp. pose proof (mp_de_limites d') as Hmp'.
  unfold mp_de in *.
  set (z := d + 719468) in *. set (z' := d' + 719468) in *.
  pose proof (Z.div_mod z 146097 ltac:(lia)) as Hz.
  pose proof (Z.mod_pos_bound z 146097 ltac:(lia)) as Hdoe.
  pose proof (Z.div_mod z' 146097 ltac:(lia)) as Hz'.
  pose proof (Z.mod_pos_bound z' 146097 ltac:(lia)) as Hdoe'.
  set (era := z / 146097) in *. set (doe := z mod 146097) in *.
  set (era' := z' / 146097) in *. set (doe' := z' mod 146097) in *.
  pose proof (doy_limites doe Hdoe) as [Hy _].
  pose proof (doy_limites doe' Hdoe') as [Hy' _].
  assert (Hera : era <= era') by (subst z z'; lia).
  destruct (Z.eq_dec era era') as [Heq|Hne]; [|lia].
  assert (Hd : doe <= doe') by (subst z z'; lia).
  pose proof (yoe_de_mono doe doe' ltac:(lia) ltac:(lia)) as Hym.
  destruct (Z.eq_dec (yoe_de doe) (yoe_de doe')) as [Hyeq|Hyne]; [|lia].
  pose proof (mp_do_doe_mono (yoe_de doe') doe doe' Hyeq eq_refl Hd). lia.
Qed.

(** Fewer than 365 days apart, two days are at most 12 calendar months
    apart. *)
Lemma mes_idx_um_ano (d d' : Z) :
  d <= d' <= d + 363 -> mes_idx d' <= mes_idx d + 12.
Proof.
  intros Hle. rewrite !mes_idx_mp.
  pose proof (mp_de_limites d) as Hmp. pose proof (mp_de_limites d') as Hmp'.
  unfold mp_de in *.
  set (z := d + 719468) in *. set (z' := d' + 719468) in *.
  pose proof (Z.div_mod z 146097 ltac:(lia)) as Hz.
  pose proof (Z.mod_pos_bound z 146097 ltac:(lia)) as Hdoe.
  pose proof (Z.div_mod z' 146097 ltac:(lia)) as Hz'.
  pose proof (Z.mod_pos_bound z' 146097 ltac:(lia)) as Hdoe'.
  set (era := z / 146097) in *. set (doe := z mod 146097) in *.
  set (era' := z' / 146097) in *. set (doe' := z' mod 146097) in *.
  pose proof (doy_limites doe Hdoe) as [Hy Hdoy].
  pose proof (doy_limites doe' Hdoe') as [Hy' Hdoy'].
  assert (Hera : era' = era \/ era' = era + 1) by (subst z z'; lia).
  destruct Hera as [Heq|Heq].
  - assert (Hd : doe <= doe' <= doe + 363) by (subst z z'; lia).
    pose proof (yoe_de_mono doe doe' ltac:(lia) ltac:(lia)) as Hym.
    pose proof (inicio_ano_mono (yoe_de doe) (yoe_de doe') ltac:(lia)) as Hia.
    destruct (Z.eq_dec (yoe_de doe) (yoe_de doe')) as [Hyeq|Hyne]; [lia|].
    assert (Hy1 : yoe_de doe' = yoe_de doe + 1) by lia.
    assert (Hmpm : mp_do_doe doe' <= mp_do_doe doe).
    { unfold mp_do_doe. apply Z.div_le_mono; lia. }
    lia.
  - assert (Hd : 145734 <= doe /\ doe' <= doe - 145734) by (subst z z'; lia).
    pose proof (yoe_de_fim doe ltac:(lia)) as Hyf.
    pose proof (yoe_de_comeco doe' ltac:(lia)) as Hyc.
    assert (Hmpm : mp_do_doe doe' <= mp_do_doe doe).
    { unfold mp_do_doe. rewrite Hyf, Hyc.
      change (inicio_ano 399) with 145731. change (inicio_ano 0) with 0.
      apply Z.div_le_mono; lia. }
    lia.
Qed.

(** ** Monthly bins *)

Lemma meses_do_periodo_limites (df : list linha) (d : Z) (ds : list Z) :
  map Data df = d :: ds ->
  mes_idx (menor_data d ds) <= mes_idx (maior_data d ds) /\
  forall k : Z,
    In k (meses_do_periodo df) <->
    mes_idx (menor_data d ds) <= k <= mes_idx (maior_data d ds).
Proof.
  intros H.
  assert (Hle : menor_data d ds <= maior_data d ds).
  { pose proof (menor_data_spec d ds) as [Hin _].
    now apply (proj2 (maior_data_spec d ds)). }
  pose proof (mes_idx_mono _ _ Hle) as Hk. split; [exact Hk|].
  intros k. rewrite (meses_do_periodo_cons df d ds H), in_intervalo. lia.
Qed.

(** X9.  In the monthly branch no row is lost and none is counted twice:
    the bins are the consecutive calendar months from the month of the
    earliest row to the month of the latest one, and every row lies in
    the bin of its own month, which is one of them, and in no other. *)
Theorem meses_particionam_linhas :
  forall (soma_grupo : list float -> float) (df : list linha)
         (data_ini data_fim d : Z) (ds : list Z),
    90 < dias_do_periodo data_ini data_fim < 365 ->
    map Data df = d :: ds ->
    let pts := fst (preparar_df_plot soma_grupo df data_ini data_fim) in
    let k0 := mes_idx (menor_data d ds) in
    let k1 := mes_idx (maior_data d ds) in
    k0 <= k1 /\
    pts = map (ponto_mensal soma_grupo df) (intervalo k0 (S (Z.to_nat (k1 - k0)))) /\
    (forall r : linha, In r df ->
       k0 <= mes_idx (Data r) <= k1 /\
       nth_error pts (Z.to_nat (mes_idx (Data r) - k0))
       = Some (ponto_mensal soma_grupo df (mes_idx (Data r))) /\
       In r (linhas_mes_ano df (mes_idx (Data r))) /\
       forall k : Z, In r (linhas_mes_ano df k) -> k = mes_idx (Data r)).
Proof.
  intros sg df ini fim d ds HD H pts k0 k1. subst pts k0 k1.
  rewrite (pontos_mensais_periodo sg df ini fim HD). cbn [fst].
  pose proof (meses_do_periodo_limites df d ds H) as [Hk _].
  split; [exact Hk|].
  split; [now rewrite (meses_do_periodo_cons df d ds H)|].
  intros r Hr. pose proof (datas_limites df d ds r H Hr) as [Hlo Hhi].
  pose proof (mes_idx_mono _ _ Hlo) as Hklo. pose proof (mes_idx_mono _ _ Hhi) as Hkhi.
  split; [lia|]. split; [|split].
  - rewrite nth_error_map, (meses_do_periodo_cons df d ds H).
    rewrite nth_error_intervalo by lia. cbn [option_map]. do 2 f_equal. lia.
  - apply in_linhas_mes_ano. now split.
  - intros k Hk'. apply in_linhas_mes_ano in Hk'. now destruct Hk' as [_ <-].
Qed.

(** X9 on a period of 100 days with rows on 2020-01-01 and 2020-03-19. *)
Lemma meses_particionam_linhas_witness :
  90 < dias_do_periodo 18262 18361 < 365 /\
  map plot_Data
    (fst (preparar_df_plot soma_sequencial
            [mk_linha 18262 30 60 79.72 "Perigo"; mk_linha 18340 25 50 71.65 "Alerta"]
            18262 18361))
  = map fim_do_mes (intervalo 24240 3).
Proof.
  assert (HD : 90 < dias_do_periodo 18262 18361 < 365) by (unfold dias_do_periodo; lia).
  split; [exact HD|].
  destruct (meses_particionam_linhas soma_sequencial
              [mk_linha 18262 30 60 79.72 "Perigo"; mk_linha 18340 25 50 71.65 "Alerta"]
              18262 18361 18262 [18340] HD eq_refl) as [_ [Hpts _]].
  rewrite Hpts. reflexivity.
Defined.

(** ** How many points the chart gets *)

Lemma ticks_todos_visiveis (df_plot : list ponto) (titulo : string) :
  (List.length df_plot <= 18)%nat ->
  Forall (fun b => b_tick_visivel b = true) (fig_barras (plot_barras_itu df_plot titulo)).
Proof.
  intros Hn. rewrite <- Forall_map with (f := b_tick_visivel) (P := fun v => v = true).
  rewrite barras_ticks. apply Forall_forall. intros v Hv. apply in_map_iff in Hv.
  destruct Hv as [i [<- _]]. unfold tick_visivel, max_labels.
  destruct (Z.ltb_spec 18 (Z.of_nat (List.length df_plot))); [lia|reflexivity].
Qed.

Lemma pontos_no_periodo (soma_grupo : list float -> float) (df : list linha)
    (data_ini data_fim : Z) :
  (forall r : linha, In r df -> data_ini <= Data r <= data_fim) ->
  NoDup (map Data df) ->
  (List.length (fst (preparar_df_plot soma_grupo df data_ini data_fim)) <= 18)%nat.
Proof.
  intros Hper Hnd. rewrite preparar_df_plot_granularidade. cbn [fst].
  pose proof (granularidade_de_cases (dias_do_periodo data_ini data_fim))
    as [H1 [H2 [H3 H4]]].
  unfold dias_do_periodo in *.
  destruct (granularidade_de (data_fim - data_ini + 1)); cbn [pontos_de].
  - assert (HD : data_fim - data_ini + 1 <= 15) by now apply H1.
    unfold pontos_diarios. rewrite length_map, <- (length_map Data).
    assert (Hincl : incl (map Data df)
                      (intervalo data_ini (Z.to_nat (data_fim - data_ini + 1)))).
    { intros x Hx. apply in_map_iff in Hx. destruct Hx as [r [<- Hr]].
      specialize (Hper r Hr). apply in_intervalo. lia. }
    pose proof (NoDup_incl_length Hnd Hincl) as Hlen.
    rewrite length_intervalo in Hlen. lia.
  - assert (HD : 15 < data_fim - data_ini + 1 <= 90) by now apply H2.
    rewrite length_map. destruct (map Data df) as [|d ds] eqn:E.
    + unfold inicios_5D. rewrite E. simpl. lia.
    + rewrite (inicios_5D_cons df d ds E), length_map, length_intervalo.
      pose proof (menor_data_spec d ds) as [Hin0 _].
      pose proof (maior_data_spec d ds) as [Hin1 _].
      rewrite <- E in Hin0, Hin1.
      apply in_map_iff in Hin0. destruct Hin0 as [r0 [E0 Hr0]].
      apply in_map_iff in Hin1. destruct Hin1 as [r1 [E1 Hr1]].
      pose proof (Hper r0 Hr0). pose proof (Hper r1 Hr1).
      assert ((maior_data d ds - menor_data d ds) / 5 < 18).
      { apply Z.div_lt_upper_bound; lia. }
      lia.
  - assert (HD : 90 < data_fim - data_ini + 1 < 365) by now apply H3.
    rewrite length_map. destruct (map Data df) as [|d ds] eqn:E.
    + unfold meses_do_periodo. rewrite E. simpl. lia.
    + rewrite (meses_do_periodo_cons df d ds E), length_intervalo.
      pose proof (menor_data_spec d ds) as [Hin0 Hmin].
      pose proof (maior_data_spec d ds) as [Hin1 _].
      pose proof (Hmin _ Hin1) as Hle.
      rewrite <- E in Hin0, Hin1.
      apply in_map_iff in Hin0. destruct Hin0 as [r0 [E0 Hr0]].
      apply in_map_iff in Hin1. destruct Hin1 as [r1 [E1 Hr1]].
      pose proof (Hper r0 Hr0). pose proof (Hper r1 Hr1).
      pose proof (mes_idx_um_ano (menor_data d ds) (maior_data d ds) ltac:(lia)).
      lia.
  - rewrite length_map. pose proof (meses_presentes_doze df) as [Hle _]. lia.
Qed.

(** X10.  When the rows are dated within the period, one per day, the
    chart has at most 18 bars whatever the period length (at most 15
    daily points, 18 five-day windows, 13 months, 12 month numbers), so
    [plot_barras_itu] hides none of its tick labels. *)
Theorem nenhum_tick_escondido :
  forall (soma_grupo : list float -> float) (df : list linha) (data_ini data_fim : Z),
    (forall r : linha, In r df -> data_ini <= Data r <= data_fim) ->
    NoDup (map Data df) ->
    let df_plot := fst (preparar_df_plot soma_grupo df data_ini data_fim) in
    let titulo := snd (preparar_df_plot soma_grupo df data_ini data_fim) in
    (List.length df_plot <= 18)%nat /\
    Forall (fun b => b_tick_visivel b = true)
      (fig_barras (plot_barras_itu df_plot titulo)).
Proof.
  intros sg df ini fim Hper Hnd df_plot titulo. subst df_plot titulo.
  pose proof (pontos_no_periodo sg df ini fim Hper Hnd) as Hlen.
  split; [exact Hlen|]. now apply ticks_todos_visiveis.
Qed.

(** X10 on two rows of a period of 20 days. *)
Lemma nenhum_tick_escondido_witness :
  (List.length
     (fst (preparar_df_plot soma_sequencial
             [mk_linha 18262 30 60 79.72 "Perigo"; mk_linha 18274 25 50 71.65 "Alerta"]
             18262 18281)) <= 18)%nat.
Proof.
  apply (nenhum_tick_escondido soma_sequencial
           [mk_linha 18262 30 60 79.72 "Perigo"; mk_linha 18274 25 50 71.65 "Alerta"]
           18262 18281).
  - intros r [<-|[<-|[]]]; simpl; lia.
  - repeat constructor; simpl; intuition discriminate.
Defined.

(** X11.  In the climatology branch the month dictionary never misses:
    the label of every point is the name that [mapa_mes] gives to its
    month number. *)
Theorem rotulos_da_climatologia :
  forall (soma_grupo : list float -> float) (df : list linha) (data_ini data_fim : Z),
    365 <= dias_do_periodo data_ini data_fim ->
    forall p : ponto,
      In p (fst (preparar_df_plot soma_grupo df data_ini data_fim)) ->
      In (plot_Data p, plot_Label p) mapa_mes /\
      dict_get (plot_Data p) mapa_mes = Some (plot_Label p).
Proof.
  intros sg df ini fim HD p Hp.
  rewrite (pontos_climatologia_periodo sg df ini fim HD) in Hp. cbn [fst] in Hp.
  apply in_map_iff in Hp. destruct Hp as [m [<- Hm]].
  apply meses_presentes_limites in Hm.
  cbn [ponto_climatologia plot_Data plot_Label].
  assert (Hcases : m = 1 \/ m = 2 \/ m = 3 \/ m = 4 \/ m = 5 \/ m = 6 \/ m = 7
                   \/ m = 8 \/ m = 9 \/ m = 10 \/ m = 11 \/ m = 12) by lia.
  repeat (destruct Hcases as [->|Hcases]; [split; [simpl; tauto|reflexivity]|]).
  subst m. split; [simpl; tauto|reflexivity].
Qed.

(** X11 on a period of 400 days with a row in May. *)
Lemma rotulos_da_climatologia_witness :
  365 <= dias_do_periodo 18262 18661 /\
  In (5, "Mai") mapa_mes.
Proof.
  assert (HD : 365 <= dias_do_periodo 18262 18661) by (unfold dias_do_periodo; lia).
  split; [exact HD|].
  apply (rotulos_da_climatologia soma_sequencial
           [mk_linha 18400 25 50 71.65 "Alerta"] 18262 18661 HD
           (mk_ponto 5 71.65 "Mai")).
  left. reflexivity.
Defined.

(** ** A series that spans the period *)

Lemma extremos_do_periodo (df : list linha) (data_ini data_fim d : Z) (ds : list Z) :
  map Data df = d :: ds ->
  (forall r : linha, In r df -> data_ini <= Data r <= data_fim) ->
  (exists r : linha, In r df /\ Data r = data_ini) ->
  (exists r : linha, In r df /\ Data r = data_fim) ->
  menor_data d ds = data_ini /\ maior_data d ds = data_fim.
Proof.
  intros H Hper [r0 [Hr0 E0]] [r1 [Hr1 E1]].
  pose proof (menor_data_spec d ds) as [Hin0 Hmin].
  pose proof (maior_data_spec d ds) as [Hin1 Hmax].
  assert (Hi : In data_ini (d :: ds)) by (rewrite <- H, <- E0; now apply in_map).
  assert (Hf : In data_fim (d :: ds)) by (rewrite <- H, <- E1; now apply in_map).
  specialize (Hmin _ Hi). specialize (Hmax _ Hf).
  rewrite <- H in Hin0, Hin1.
  apply in_map_iff in Hin0. destruct Hin0 as [a [Ea Ha]].
  apply in_map_iff in Hin1. destruct Hin1 as [b [Eb Hb]].
  pose proof (Hper a Ha). pose proof (Hper b Hb). lia.
Qed.

(** X12.  When the series has a row on the first day and on the last day
    of the period and none outside it, the five-day branch gives
    ceil(D / 5) points whose windows start on the first day of the period
    and every five days after it, and the monthly branch gives one point
    for each calendar month from the month of the first day to the month
    of the last. *)
Theorem pontos_do_periodo_completo :
  forall (soma_grupo : list float -> float) (df : list linha) (data_ini data_fim : Z),
    (forall r : linha, In r df -> data_ini <= Data r <= data_fim) ->
    (exists r : linha, In r df /\ Data r = data_ini) ->
    (exists r : linha, In r df /\ Data r = data_fim) ->
    let D := dias_do_periodo data_ini data_fim in
    let pts := fst (preparar_df_plot soma_grupo df data_ini data_fim) in
    (15 < D <= 90 ->
     map plot_Data pts
     = map (fun k => data_ini + 5 * k) (intervalo 0 (Z.to_nat ((D + 4) / 5)))) /\
    (90 < D < 365 ->
     map plot_Data pts
     = map fim_do_mes
         (intervalo (mes_idx data_ini)
            (Z.to_nat (mes_idx data_fim - mes_idx data_ini + 1)))).
Proof.
  intros sg df ini fim Hper Hini Hfim D pts. subst D pts.
  destruct (map Data df) as [|d ds] eqn:H.
  { destruct Hini as [r [Hr _]]. destruct df; [destruct Hr|discriminate]. }
  destruct (extremos_do_periodo df ini fim d ds H Hper Hini Hfim) as [E0 E1].
  split; intros HD.
  - rewrite (pontos_5D_periodo sg df ini fim HD). cbn [fst].
    rewrite map_map. cbn [ponto_5D plot_Data]. rewrite map_id.
    rewrite (inicios_5D_cons df d ds H), E0, E1. do 2 f_equal.
    unfold dias_do_periodo in *. Z.div_mod_to_equations. lia.
  - rewrite (pontos_mensais_periodo sg df ini fim HD). cbn [fst].
    rewrite map_map. cbn [ponto_mensal plot_Data].
    rewrite (meses_do_periodo_cons df d ds H), E0, E1. do 2 f_equal.
    assert (ini <= fim) by (unfold dias_do_periodo in HD; lia).
    pose proof (mes_idx_mono ini fim ltac:(lia)). lia.
Qed.

(** X12 on a period of 50 days: ten windows, from the first day on. *)
Lemma pontos_do_periodo_completo_witness :
  map plot_Data
    (fst (preparar_df_plot soma_sequencial
            [mk_linha 18262 30 60 79.72 "Perigo"; mk_linha 18311 25 50 71.65 "Alerta"]
            18262 18311))
  = [18262; 18267; 18272; 18277; 18282; 18287; 18292; 18297; 18302; 18307].
Proof.
  refine (proj1 (pontos_do_periodo_completo soma_sequencial
           [mk_linha 18262 30 60 79.72 "Perigo"; mk_linha 18311 25 50 71.65 "Alerta"]
           18262 18311 _ _ _) _).
  - intros r [<-|[<-|[]]]; simpl; lia.
  - eexists. split; [left; reflexivity|reflexivity].
  - eexists. split; [right; left; reflexivity|reflexivity].
  - unfold dias_do_periodo. lia.
Defined.

(** ** The lines of the report *)

Lemma firstn_soma {A : Type} (a b : nat) (l : list A) :
  firstn (a + b) l = (firstn a l ++ firstn b (skipn a l))%list.
Proof.
  revert l. induction a as [|a IH]; intros l; [reflexivity|].
  destruct l as [|x l]; [simpl; now rewrite firstn_nil|].
  simpl. now rewrite IH.
Qed.

Lemma skipn_soma {A : Type} (a b : nat) (l : list A) :
  skipn (a + b) l = skipn a (skipn b l).
Proof.
  revert l. induction b as [|b IH]; intros l.
  - now rewrite Nat.add_0_r.
  - rewrite Nat.add_succ_r. destruct l as [|x l]; [now rewrite !skipn_nil|].
    simpl. apply IH.
Qed.

Lemma concat_fatias_seq {A : Type} (n j0 c : nat) (l : list A) :
  List.concat (map (fun j => firstn n (skipn (j * n) l)) (seq j0 c))
  = firstn (c * n) (skipn (j0 * n) l).
Proof.
  revert j0. induction c as [|c IH]; intros j0; [reflexivity|].
  cbn [seq map List.concat]. rewrite IH.
  replace (S c * n)%nat with (n + c * n)%nat by lia.
  rewrite firstn_soma. f_equal. f_equal.
  replace (S j0 * n)%nat with (n + j0 * n)%nat by lia.
  apply skipn_soma.
Qed.

Lemma firstn_seq_min (k a c : nat) : firstn k (seq a c) = seq a (Nat.min k c).
Proof.
  revert a c. induction k as [|k IH]; intros a [|c]; try reflexivity.
  simpl. now rewrite IH.
Qed.

Lemma fatias_cobrem (n len : nat) :
  (0 < n)%nat -> (len <= (len + n - 1) / n * n)%nat.
Proof.
  intros Hn.
  pose proof (Nat.div_mod_eq (len + n - 1) n) as E.
  pose proof (Nat.mod_upper_bound (len + n - 1) n ltac:(lia)) as Hr.
  lia.
Qed.

Lemma concat_firstn_fatias {A : Type} (n k : nat) (l : list A) :
  (0 < n)%nat ->
  List.concat (firstn k (fatias_de n l)) = firstn (k * n) l.
Proof.
  intros Hn. unfold fatias_de. rewrite firstn_map, firstn_seq_min.
  rewrite concat_fatias_seq. cbn [Nat.mul skipn].
  set (q := ((List.length l + n - 1) / n)%nat).
  destruct (Nat.min_spec k q) as [[_ ->]|[Hle ->]]; [reflexivity|].
  pose proof (fatias_cobrem n (List.length l) Hn) as Hq. fold q in Hq.
  assert (q * n <= k * n)%nat by now apply Nat.mul_le_mono_r.
  rewrite !firstn_all2 by lia. reflexivity.
Qed.

Lemma concat_fatias {A : Type} (n : nat) (l : list A) :
  (0 < n)%nat -> List.concat (fatias_de n l) = l.
Proof.
  intros Hn. unfold fatias_de. rewrite concat_fatias_seq. cbn [Nat.mul skipn].
  apply firstn_all2. now apply fatias_cobrem.
Qed.

Lemma fatias_tamanho {A : Type} (n : nat) (l : list A) :
  (0 < n)%nat ->
  Forall (fun f => (1 <= List.length f <= n)%nat) (fatias_de n l).
Proof.
  intros Hn. unfold fatias_de. apply Forall_forall. intros f Hf.
  apply in_map_iff in Hf. destruct Hf as [j [<- Hj]]. apply in_seq in Hj.
  rewrite length_firstn, length_skipn.
  set (q := ((List.length l + n - 1) / n)%nat) in *.
  assert (Hq : (q * n <= List.length l + n - 1)%nat).
  { subst q. pose proof (Nat.div_mod_eq (List.length l + n - 1) n). lia. }
  assert (Hjn : (S j * n <= q * n)%nat) by (apply Nat.mul_le_mono_r; lia).
  simpl in Hjn. lia.
Qed.

(** X13.  Cutting a text of the report in lines loses nothing: the lines
    put together are the text, and each has between 1 and 95 characters.
    The report prints only the first four lines of the diagnosis and the
    first three of the advice, that is their first 380 and 285
    characters: a shorter text is printed whole, and the rest of a longer
    one is left out. *)
Theorem linhas_do_relatorio :
  forall (A : Type) (texto : list A),
    List.concat (fatias_de max_chars texto) = texto /\
    Forall (fun f => (1 <= List.length f <= 95)%nat) (fatias_de max_chars texto) /\
    (List.length (linhas_do_diagnostico texto) <= 4)%nat /\
    (List.length (linhas_da_recomendacao texto) <= 3)%nat /\
    List.concat (linhas_do_diagnostico texto) = firstn 380 texto /\
    List.concat (linhas_da_recomendacao texto) = firstn 285 texto /\
    ((List.length texto <= 380)%nat -> List.concat (linhas_do_diagnostico texto) = texto) /\
    ((List.length texto <= 285)%nat -> List.concat (linhas_da_recomendacao texto) = texto).
Proof.
  intros A texto.
  assert (Hn : (0 < max_chars)%nat) by (unfold max_chars; lia).
  assert (Hd : List.concat (linhas_do_diagnostico texto) = firstn 380 texto).
  { unfold linhas_do_diagnostico. now rewrite (concat_firstn_fatias max_chars 4 texto Hn). }
  assert (Hr : List.concat (linhas_da_recomendacao texto) = firstn 285 texto).
  { unfold linhas_da_recomendacao. now rewrite (concat_firstn_fatias max_chars 3 texto Hn). }
  split; [now apply concat_fatias|].
  split; [exact (fatias_tamanho max_chars texto Hn)|].
  split; [apply firstn_le_length|].
  split; [apply firstn_le_length|].
  split; [exact Hd|]. split; [exact Hr|].
  split; intros Hlen.
  - rewrite Hd. now apply firstn_all2.
  - rewrite Hr. now apply firstn_all2.
Qed.
